(** * klingCreator: the job lifecycle of [kling/api.py]

    A shallow embedding of the FastAPI service of [src/kling/api.py]:
    [create_video] (image preprocessing, submission, cleanup, scheduling of
    the poll loop), [poll_and_notify] (the poll loop and its webhook
    deliveries) and [get_video_status].

    The service talks to collaborators that are not part of the sources:
    the provider client [VideoGen], the HTTP client [httpx], the clock and
    the temporary-file machinery.  They are an interface
    ([Collaborators]) over an arbitrary world type, every call of which
    either returns or raises.  The set of existing files and the trace of
    the calls the service makes are kept by the embedding itself. *)

From stdpp Require Import gmap strings list pretty.
From Stdlib Require Import ZArith Lia Ascii.

Open Scope Z_scope.

(** ** Values *)

(** Modelled from the spec: the enumeration [TaskStatus] of the [kling]
    package, which [api.py] imports but which is not among the sources.
    The code names [COMPLETED] and [FAILED]; every other status takes the
    "still pending" path. *)
Inductive TaskStatus := PENDING | COMPLETED | FAILED.

(** [status.name.lower()] *)
Definition status_name_lower (status : TaskStatus) : string :=
  match status with
  | PENDING => "pending"
  | COMPLETED => "completed"
  | FAILED => "failed"
  end.

(** Exceptions caught by [except Exception]: FastAPI's [HTTPException], and
    any other exception, of which the code only uses [str(e)]. *)
Inductive exn :=
| Exception (msg : string)
| HTTPException (status_code : Z) (detail : string).

Inductive Exc (A : Type) :=
| Ok (a : A)
| Raise (e : exn).
Arguments Ok {A} a.
Arguments Raise {A} e.

(** The JSON values the service sends: a task id is an [int] in
    [poll_and_notify] and a [str] in [get_video_status]. *)
Inductive json :=
| JInt (n : Z)
| JStr (s : string)
| JList (l : list string).

(** A JSON object, its keys in the order the code writes them. *)
Definition payload := list (string * json).

Fixpoint payload_get (key : string) (p : payload) : option json :=
  match p with
  | [] => None
  | (k, v) :: rest => if String.eqb k key then Some v else payload_get key rest
  end.

(** One element of [data["works"]]; [workId] is [None] when the key is
    missing, in which case [work["workId"]] raises [KeyError]. *)
Record Work := { workId : option Z }.

(** The metadata dictionary [data]; [works] is [None] when the key is
    missing, in which case [data.get("works", [])] is the empty list. *)
Record Metadata := { works : option (list Work) }.

Record VideoRequest := {
  prompt : string;
  image_url : option string;
  image_path : option string;
  is_high_quality : bool;
  auto_extend : bool;
  model_name : string;
  webhook_url : option string
}.

Record VideoResponse := { task_id : Z }.

(** What the service reads of the answer to [client.get]: the exception
    [raise_for_status] raises, if any, the [content-type] header, if any,
    and the body. *)
Record Response := {
  status_error : option exn;
  content_type_header : option string;
  content : string
}.

(** Python truthiness of an [Optional[str]]. *)
Definition truthy (v : option string) : bool :=
  match v with
  | Some s => negb (String.eqb s "")
  | None => false
  end.

Definition is_none {A} (v : option A) : bool :=
  match v with
  | Some _ => false
  | None => true
  end.

(** ** The file extension of a fetched image *)

(** [pat in s] on strings. *)
Fixpoint str_in (pat s : string) : bool :=
  String.prefix pat s ||
  match s with
  | EmptyString => false
  | String _ rest => str_in pat rest
  end.

(** [p.rfind(c)] for a one-character [c], counting from index [i] of the
    whole string: the last index, or -1. *)
Fixpoint rfind_from (c : ascii) (p : string) (i : Z) : Z :=
  match p with
  | EmptyString => -1
  | String a rest =>
      let later := rfind_from c rest (i + 1) in
      if later >=? 0 then later
      else if Ascii.eqb a c then i else -1
  end.

Definition rfind (c : ascii) (p : string) : Z := rfind_from c p 0.

(** [p[i:i+1] != c] *)
Definition char_differs (p : string) (i : nat) (c : ascii) : bool :=
  match String.get i p with
  | Some a => negb (Ascii.eqb a c)
  | None => true
  end.

(** The [while] loop of [genericpath._splitext]: is there an index in
    [filenameIndex, dotIndex) whose character is not a dot?  [n] counts the
    indices that remain. *)
Fixpoint has_name_before_dot (p : string) (filenameIndex n : nat) : bool :=
  match n with
  | O => false
  | S n' =>
      char_differs p filenameIndex "."%char
      || has_name_before_dot p (S filenameIndex) n'
  end.

(** [os.path.splitext(p)[1]] of [posixpath]. *)
Definition splitext_ext (p : string) : string :=
  let sepIndex := rfind "/"%char p in
  let dotIndex := rfind "."%char p in
  if (dotIndex >? sepIndex)
     && has_name_before_dot p (Z.to_nat (sepIndex + 1))
                            (Z.to_nat (dotIndex - (sepIndex + 1)))
  then String.substring (Z.to_nat dotIndex)
                        (String.length p - Z.to_nat dotIndex) p
  else "".

(** Lines 89-102: the extension from the content type, then from the path
    of the URL, then [.jpg].  [url_path] is [urlparse(url).path]. *)
Definition choose_extension (content_type url_path : string) : string :=
  if str_in "image/jpeg" content_type then ".jpg"
  else if str_in "image/png" content_type then ".png"
  else if str_in "image/gif" content_type then ".gif"
  else if str_in "image/webp" content_type then ".webp"
  else
    let ext := splitext_ext url_path in
    if String.eqb ext "" then ".jpg" else ext.


(** The words of the spec for the choice of the extension, to be compared
    with [choose_extension].  They are stated on the text of the header and
    of the path, without the functions of the code. *)










(** ** The collaborators *)

Class Collaborators (W : Type) := {
  (** [VideoGen.fetch_metadata(task_id)] *)
  fetch_metadata : json -> W -> Exc (Metadata * TaskStatus) * W;
  (** [VideoGen.fetch_video_url(work_id)]; the code drops the second
      component of the answer *)
  fetch_video_url : Z -> W -> Exc (option string * TaskStatus) * W;
  (** [VideoGen.get_video(prompt, image_url, image_path, is_high_quality,
      model_name, _return_task_only=True)] *)
  get_video :
    string -> option string -> option string -> bool -> string ->
    W -> Exc Z * W;
  (** [httpx.AsyncClient.get] and [post] *)
  http_get : string -> W -> Exc Response * W;
  http_post : string -> payload -> W -> Exc unit * W;
  (** [asyncio.sleep] *)
  asyncio_sleep : Z -> W -> W;
  (** the directory and random stem [NamedTemporaryFile] picks for a
      suffix; the name of the file is the stem followed by the suffix *)
  temp_stem : string -> W -> Exc string * W;
  (** writing and closing the temporary file *)
  file_write : string -> string -> W -> Exc unit * W;
  (** [urlparse(url).path] *)
  urlparse_path : string -> string;
  (** [str(e)] of an [HTTPException] *)
  http_exception_str : Z -> string -> string;
  (** the exception [os.remove] raises for a path that names no file *)
  os_remove_error : string -> exn
}.

(** ** State, events and the monad of the service *)

Inductive Event :=
| EFetchMetadata (tid : json)
| EFetchVideoUrl (work_id : Z)
| EPost (url : string) (body : payload)
| ESleep (seconds : Z)
| EGet (url : string)
| ETempFile (name : string)
| EWrite (name : string)
| EGetVideo (p : string) (url path : option string) (hq : bool) (model : string)
| ERemove (path : string).

(** A task handed to [background_tasks.add_task]. *)
Record BackgroundTask := { bg_task_id : Z; bg_webhook_url : string }.

Record St (W : Type) := mkSt {
  world : W;
  files : gset string;
  trace : list Event;
  background_tasks : list BackgroundTask
}.
Arguments mkSt {W}.
Arguments world {W}.
Arguments files {W}.
Arguments trace {W}.
Arguments background_tasks {W}.

Definition M (W A : Type) : Type := St W -> Exc A * St W.

#[export] Instance M_ret {W} : MRet (M W) := fun A a st => (Ok a, st).

#[export] Instance M_bind {W} : MBind (M W) :=
  fun A B k m st =>
    match m st with
    | (Ok a, st') => k a st'
    | (Raise e, st') => (Raise e, st')
    end.

Definition raise {W A} (e : exn) : M W A := fun st => (Raise e, st).

(** [try: body except Exception as e: handler] *)
Definition try_except {W A} (body : M W A) (handler : exn -> M W A) : M W A :=
  fun st =>
    match body st with
    | (Ok a, st') => (Ok a, st')
    | (Raise e, st') => handler e st'
    end.

(** [try: body finally: final]: [final] runs on every exit of [body]; an
    exception it raises replaces the outcome of [body]. *)
Definition try_finally {W A} (body : M W A) (final : M W unit) : M W A :=
  fun st =>
    match body st with
    | (r, st') =>
        match final st' with
        | (Ok _, st'') => (r, st'')
        | (Raise e, st'') => (Raise e, st'')
        end
    end.

Definition log {W} (ev : Event) (st : St W) : St W :=
  mkSt (world st) (files st) (trace st ++ [ev]) (background_tasks st).

(** A call to a collaborator: the event is recorded, then the collaborator
    answers and moves the world. *)
Definition call {W A} (ev : Event) (f : W -> Exc A * W) : M W A :=
  fun st =>
    match f (world st) with
    | (r, w) => (r, mkSt w (files st) (trace st ++ [ev]) (background_tasks st))
    end.

Section Service.
Context {W : Type} `{Collab : Collaborators W}.

Definition str (e : exn) : string :=
  match e with
  | Exception msg => msg
  | HTTPException code detail => http_exception_str code detail
  end.

(** [await asyncio.sleep(seconds)] *)
Definition sleep (seconds : Z) : M W unit :=
  call (ESleep seconds) (fun w => (Ok tt, asyncio_sleep seconds w)).

(** [await client.post(url, json=body)] *)
Definition post (url : string) (body : payload) : M W unit :=
  call (EPost url body) (http_post url body).

(** [work["workId"]] *)
Definition subscript_workId (work : Work) : M W Z :=
  match workId work with
  | Some work_id => mret work_id
  | None => raise (Exception "'workId'")
  end.

(** Lines 45-49 and 147-151: the loop over [works], which appends every
    truthy resource to [video_urls]. *)
Fixpoint collect_video_urls (ws : list Work) (video_urls : list string)
  : M W (list string) :=
  match ws with
  | [] => mret video_urls
  | work :: rest =>
      work_id ← subscript_workId work;
      '(resource, _) ← call (EFetchVideoUrl work_id) (fetch_video_url work_id);
      collect_video_urls rest
        (match resource with
         | Some url => if truthy resource then video_urls ++ [url] else video_urls
         | None => video_urls
         end)
  end.

(** [data.get("works", [])] *)
Definition get_works (data : Metadata) : list Work :=
  match works data with
  | Some ws => ws
  | None => []
  end.

Definition completed_payload (tid : json) (video_urls : list string) : payload :=
  [("task_id", tid); ("status", JStr "completed"); ("video_urls", JList video_urls)].

Definition failed_payload (tid : json) : payload :=
  [("task_id", tid); ("status", JStr "failed"); ("error", JStr "Video generation failed")].

Definition error_payload (tid : json) (e : exn) : payload :=
  [("task_id", tid); ("status", JStr "error"); ("error", JStr (str e))].

(** How one pass through the body of [while True] ends. *)
Inductive LoopExit := Break | Continue.

(** Lines 38-67: the [try] block of the loop. *)
Definition poll_body (tid : Z) (url : string) : M W LoopExit :=
  '(data, status) ← call (EFetchMetadata (JInt tid)) (fetch_metadata (JInt tid));
  match status with
  | COMPLETED =>
      video_urls ← collect_video_urls (get_works data) [];
      post url (completed_payload (JInt tid) video_urls);;
      mret Break
  | FAILED =>
      post url (failed_payload (JInt tid));;
      mret Break
  | PENDING =>
      sleep 5;;
      mret Continue
  end.

(** Lines 69-75: the [except] clause of the loop. *)
Definition poll_handler (tid : Z) (url : string) (e : exn) : M W LoopExit :=
  post url (error_payload (JInt tid) e);;
  mret Break.

(** Lines 37-75: one pass through the body of [while True]. *)
Definition poll_iteration (tid : Z) (url : string) : M W LoopExit :=
  try_except (poll_body tid url) (poll_handler tid url).

(** The outcome of running the loop for a bounded number of passes. *)
Inductive Run :=
| Finished (r : Exc unit)
| StillPolling.

(** Lines 32-75.  [fuel] bounds the number of passes through the loop. *)
Fixpoint poll_and_notify (fuel : nat) (tid : Z) (url : string) (st : St W)
  : Run * St W :=
  match fuel with
  | O => (StillPolling, st)
  | S fuel' =>
      match poll_iteration tid url st with
      | (Ok Continue, st') => poll_and_notify fuel' tid url st'
      | (Ok Break, st') => (Finished (Ok tt), st')
      | (Raise e, st') => (Finished (Raise e), st')
      end
  end.

(** Lines 144-153 of [get_video_status]: the status and the resolved URLs
    of one query. *)
Definition get_video_status (tid : string) : M W payload :=
  try_except
    ('(data, status) ← call (EFetchMetadata (JStr tid)) (fetch_metadata (JStr tid));
     video_urls ←
       match status with
       | COMPLETED => collect_video_urls (get_works data) []
       | _ => mret []
       end;
     mret [("task_id", JStr tid);
           ("status", JStr (status_name_lower status));
           ("video_urls", JList video_urls)])
    (fun e => raise (HTTPException 400 (str e))).

(** [response.raise_for_status()] *)
Definition raise_for_status (response : Response) : M W unit :=
  match status_error response with
  | Some e => raise e
  | None => mret tt
  end.

(** [NamedTemporaryFile(suffix=suffix, delete=False)]: a file named by the
    stem and the suffix exists from now on. *)
Definition named_temporary_file (suffix : string) : M W string :=
  fun st =>
    match temp_stem suffix (world st) with
    | (Ok stem, w) =>
        let name := stem +:+ suffix in
        (Ok name,
         mkSt w ({[name]} ∪ files st) (trace st ++ [ETempFile name])
              (background_tasks st))
    | (Raise e, w) =>
        (Raise e, mkSt w (files st) (trace st) (background_tasks st))
    end.

(** [os.remove(path)] *)
Definition os_remove (path : string) : M W unit :=
  fun st =>
    if decide (path ∈ files st)
    then (Ok tt,
          mkSt (world st) (files st ∖ {[path]}) (trace st ++ [ERemove path])
               (background_tasks st))
    else (Raise (os_remove_error path), log (ERemove path) st).

(** [background_tasks.add_task(poll_and_notify, task_id, url)] *)
Definition add_task (tid : Z) (url : string) : M W unit :=
  fun st =>
    (Ok tt,
     mkSt (world st) (files st) (trace st)
          (background_tasks st ++ [{| bg_task_id := tid; bg_webhook_url := url |}])).

Definition set_image (request : VideoRequest) (url path : option string)
  : VideoRequest :=
  {| prompt := prompt request;
     image_url := url;
     image_path := path;
     is_high_quality := is_high_quality request;
     auto_extend := auto_extend request;
     model_name := model_name request;
     webhook_url := webhook_url request |}.

(** Lines 83-108: the image of [request.image_url] is downloaded into a
    temporary file; the request that leaves has the name of the file as its
    [image_path] and no [image_url]. *)
Definition download_image (request : VideoRequest) : M W VideoRequest :=
  match image_url request with
  | Some url =>
      if truthy (image_url request) then
        response ← call (EGet url) (http_get url);
        raise_for_status response;;
        let content_type := default "" (content_type_header response) in
        let extension := choose_extension content_type (urlparse_path url) in
        name ← named_temporary_file extension;
        call (EWrite name) (file_write name (content response));;
        mret (set_image request None (Some name))
      else mret request
  | None => mret request
  end.

(** Lines 124-127: the [finally] clause. *)
Definition cleanup (request : VideoRequest) : M W unit :=
  match image_path request with
  | Some path =>
      if truthy (image_path request) && is_none (image_url request)
      then os_remove path
      else mret tt
  | None => mret tt
  end.

(** Lines 110-127: the submission, with its [except] and [finally] clauses.
    (The two [print] calls and [traceback.print_exc] are left out.) *)
Definition submit (request : VideoRequest) : M W Z :=
  try_finally
    (try_except
       (call (EGetVideo (prompt request) None (image_path request)
                        (is_high_quality request) (model_name request))
             (get_video (prompt request) None (image_path request)
                        (is_high_quality request) (model_name request)))
       (fun e => raise (HTTPException 400 (str e))))
    (cleanup request).

(** Lines 77-136.  [webhook_url] is a validated [HttpUrl], which is truthy
    whenever it is not [None]. *)
Definition create_video (request : VideoRequest) : M W VideoResponse :=
  try_except
    (request' ← download_image request;
     tid ← submit request';
     match webhook_url request' with
     | Some url => add_task tid url
     | None => mret tt
     end;;
     mret {| task_id := tid |})
    (fun e => raise (HTTPException 400 (str e))).

(** The framework runs the tasks a handler has scheduled one after the
    other, once the handler has returned. *)
Fixpoint run_background_tasks (fuel : nat) (tasks : list BackgroundTask)
    (st : St W) : St W :=
  match tasks with
  | [] => st
  | t :: rest =>
      match poll_and_notify fuel (bg_task_id t) (bg_webhook_url t) st with
      | (Finished (Ok _), st') => run_background_tasks fuel rest st'
      | (_, st') => st'
      end
  end.

(** One creation request from its arrival to the end of its poll loop. *)
Definition job_lifecycle (fuel : nat) (request : VideoRequest) (st : St W)
  : Exc VideoResponse * St W :=
  match create_video request
          (mkSt (world st) (files st) (trace st) []) with
  | (r, st') =>
      (r, run_background_tasks fuel (background_tasks st')
            (mkSt (world st') (files st') (trace st') []))
  end.

End Service.

(** ** A scripted world

    A world whose provider answers the successive [fetch_metadata] calls
    from a list consumed from the front (an exhausted list answers
    "pending"), whose other answers are fixed, and whose webhook accepts
    every POST except those to [dead_hook].  Removing a file that does not
    exist raises [FileNotFoundError], with the text Python gives for a path
    that has neither quotes nor backslashes, as the paths of the examples. *)

Module Scripted.

(** [urlparse(url).path] for a URL [scheme://netloc/path;params?query#frag]:
    what lies between the network location and the first of [?] and [#],
    without the parameters of the last segment. *)
Fixpoint drop_scheme (url : string) : string :=
  match url with
  | String ":" (String "/" (String "/" rest)) => rest
  | String _ rest => drop_scheme rest
  | EmptyString => EmptyString
  end.

Fixpoint drop_netloc (s : string) : string :=
  match s with
  | String c rest =>
      if Ascii.eqb c "/" || Ascii.eqb c "?" || Ascii.eqb c "#"
      then s else drop_netloc rest
  | EmptyString => EmptyString
  end.

Fixpoint until_query (s : string) : string :=
  match s with
  | String c rest =>
      if Ascii.eqb c "?" || Ascii.eqb c "#"
      then EmptyString else String c (until_query rest)
  | EmptyString => EmptyString
  end.

(** [_splitparams]: the text before the first [;] of the last segment. *)
Fixpoint until_params (s : string) : string :=
  match s with
  | String c rest =>
      if Ascii.eqb c ";" && negb (str_in "/" rest)
      then EmptyString else String c (until_params rest)
  | EmptyString => EmptyString
  end.

Definition url_path (url : string) : string :=
  until_params (until_query (drop_netloc (drop_scheme url))).

Record Script := {
  metadata_answers : list (Exc (Metadata * TaskStatus));
  url_answer : Z -> Exc (option string * TaskStatus);
  submit_answer : string -> Exc Z;
  get_answer : string -> Exc Response;
  write_answer : Exc unit;
  stem_answer : Exc string;
  slept : Z
}.

Definition next_metadata (w : Script) : Exc (Metadata * TaskStatus) * Script :=
  match metadata_answers w with
  | r :: rest =>
      (r, {| metadata_answers := rest; url_answer := url_answer w;
             submit_answer := submit_answer w; get_answer := get_answer w;
             write_answer := write_answer w; stem_answer := stem_answer w;
             slept := slept w |})
  | [] => (Ok ({| works := None |}, PENDING), w)
  end.

Definition pass_time (seconds : Z) (w : Script) : Script :=
  {| metadata_answers := metadata_answers w; url_answer := url_answer w;
     submit_answer := submit_answer w; get_answer := get_answer w;
     write_answer := write_answer w; stem_answer := stem_answer w;
     slept := slept w + seconds |}.

Definition hook : string := "https://client.example/hook".
Definition dead_hook : string := "https://unreachable.example/hook".

Definition post_answer (url : string) : Exc unit :=
  if String.eqb url dead_hook
  then Raise (Exception "All connection attempts failed")
  else Ok tt.

#[export] Instance script_collaborators : Collaborators Script := {
  fetch_metadata := fun _ w => next_metadata w;
  fetch_video_url := fun work_id w => (url_answer w work_id, w);
  get_video := fun p _ _ _ _ w => (submit_answer w p, w);
  http_get := fun url w => (get_answer w url, w);
  http_post := fun url _ w => (post_answer url, w);
  asyncio_sleep := pass_time;
  temp_stem := fun _ w => (stem_answer w, w);
  file_write := fun _ _ w => (write_answer w, w);
  urlparse_path := url_path;
  http_exception_str := fun code detail => pretty code +:+ ": " +:+ detail;
  os_remove_error := fun path =>
    Exception ("[Errno 2] No such file or directory: '" +:+ path +:+ "'")
}.

(** A provider that knows the works 1, 2 and 3: the lookups of 1 and 3
    give a URL, the lookup of 2 gives none. *)
Definition three_works (work_id : Z) : Exc (option string * TaskStatus) :=
  if work_id =? 1 then Ok (Some "https://cdn/v1.mp4", COMPLETED)
  else if work_id =? 2 then Ok (None, FAILED)
  else if work_id =? 3 then Ok (Some "https://cdn/v3.mp4", COMPLETED)
  else Raise (Exception "unknown work").

(** The same provider when the lookup of work 2 times out. *)
Definition lookup_times_out (work_id : Z) : Exc (option string * TaskStatus) :=
  if work_id =? 2 then Raise (Exception "lookup timed out")
  else three_works work_id.

Definition png_image (url : string) : Exc Response :=
  Ok {| status_error := None;
        content_type_header := Some "image/png";
        content := "PNG" |}.

Definition script (metadata : list (Exc (Metadata * TaskStatus))) : Script :=
  {| metadata_answers := metadata;
     url_answer := three_works;
     submit_answer := fun _ => Ok 42;
     get_answer := png_image;
     write_answer := Ok tt;
     stem_answer := Ok "/tmp/tmpab12cd";
     slept := 0 |}.

Definition with_lookups (f : Z -> Exc (option string * TaskStatus))
    (w : Script) : Script :=
  {| metadata_answers := metadata_answers w; url_answer := f;
     submit_answer := submit_answer w; get_answer := get_answer w;
     write_answer := write_answer w; stem_answer := stem_answer w;
     slept := slept w |}.

Definition with_write (r : Exc unit) (w : Script) : Script :=
  {| metadata_answers := metadata_answers w; url_answer := url_answer w;
     submit_answer := submit_answer w; get_answer := get_answer w;
     write_answer := r; stem_answer := stem_answer w;
     slept := slept w |}.

Definition start (w : Script) : St Script := mkSt w ∅ [] [].

Definition pending : Exc (Metadata * TaskStatus) :=
  Ok ({| works := None |}, PENDING).

Definition failed : Exc (Metadata * TaskStatus) :=
  Ok ({| works := None |}, FAILED).

Definition completed (ids : list Z) : Exc (Metadata * TaskStatus) :=
  Ok ({| works := Some (map (fun id => {| workId := Some id |}) ids) |},
      COMPLETED).

Definition text_request (p : string) (hook_url : option string) : VideoRequest :=
  {| prompt := p; image_url := None; image_path := None;
     is_high_quality := true; auto_extend := false; model_name := "1.5";
     webhook_url := hook_url |}.

Definition image_request (url path : option string) : VideoRequest :=
  {| prompt := "a cat"; image_url := url; image_path := path;
     is_high_quality := true; auto_extend := false; model_name := "1.5";
     webhook_url := None |}.

(** The answers and states of the examples. *)
Definition connection_reset : exn := Exception "connection reset".
Definition no_space : exn := Exception "[Errno 28] No space left on device".
Definition no_works : Metadata := {| works := None |}.
Definition two_works : Metadata :=
  {| works := Some [ {| workId := Some 1 |}; {| workId := Some 3 |} ] |}.
Definition all_works : Metadata :=
  {| works := Some [ {| workId := Some 1 |}; {| workId := Some 2 |};
                     {| workId := Some 3 |} ] |}.
Definition v1 : string := "https://cdn/v1.mp4".
Definition v3 : string := "https://cdn/v3.mp4".
Definition cat_url : string := "https://img.example/a/cat.gif?size=2".
Definition cat_path : string := "/home/user/cat.png".
Definition png_response : Response :=
  {| status_error := None;
     content_type_header := Some "image/png";
     content := "PNG" |}.

End Scripted.

(** ** Reading traces *)

Definition is_post (ev : Event) : bool :=
  match ev with EPost _ _ => true | _ => false end.

Definition is_poll (ev : Event) : bool :=
  match ev with EFetchMetadata _ => true | _ => false end.

Definition is_sleep (ev : Event) : bool :=
  match ev with ESleep _ => true | _ => false end.

Definition is_lookup (ev : Event) : bool :=
  match ev with EFetchVideoUrl _ => true | _ => false end.

(** Is the event a delivery whose body has this status? *)
Definition is_post_with_status (status : string) (ev : Event) : bool :=
  match ev with
  | EPost _ body =>
      match payload_get "status" body with
      | Some (JStr s) => String.eqb s status
      | _ => false
      end
  | _ => false
  end.

Definition count (f : Event -> bool) (tr : list Event) : nat :=
  length (filter (fun ev => f ev = true) tr).

(** The URLs a list of lookup answers contributes to [video_urls]. *)
Definition resolved (answers : list (option string * TaskStatus)) : list string :=
  omap (fun a : option string * TaskStatus =>
          if truthy (fst a) then fst a else None) answers.

(** ** What the provider does over several calls *)

Section Provider.
Context {W : Type} `{Collab : Collaborators W}.

(** The provider answers the lookups of the works [ws], whose ids are
    [ids], one after the other with [answers], none of them raising. *)
Inductive lookups_return :
  list Work -> list Z -> list (option string * TaskStatus) -> W -> W -> Prop :=
| lookups_nil w : lookups_return [] [] [] w w
| lookups_cons id ws ids a answers w w1 w' :
    fetch_video_url id w = (Ok a, w1) ->
    lookups_return ws ids answers w1 w' ->
    lookups_return ({| workId := Some id |} :: ws) (id :: ids) (a :: answers) w w'.

(** The provider answers "pending" to [k] polls of the task in a row, the
    loop sleeping 5 after each. *)
Inductive pending_polls (tid : Z) : nat -> W -> W -> Prop :=
| pending_O w : pending_polls tid O w w
| pending_S k w data w1 w' :
    fetch_metadata (JInt tid) w = (Ok (data, PENDING), w1) ->
    pending_polls tid k (asyncio_sleep 5 w1) w' ->
    pending_polls tid (S k) w w'.

(** The events of [k] passes through the loop that found the task pending. *)
Fixpoint pending_events (tid : Z) (k : nat) : list Event :=
  match k with
  | O => []
  | S k' => EFetchMetadata (JInt tid) :: ESleep 5 :: pending_events tid k'
  end.

End Provider.

(** ** Frames

    [respects R m]: the states before and after any run of [m] are related
    by [R].  The two relations used are [extends_with P] (the events
    recorded by the run all satisfy [P]) and [same_tasks] (the run schedules
    no background task). *)

Definition respects {W A} (R : St W -> St W -> Prop) (m : M W A) : Prop :=
  forall st r st', m st = (r, st') -> R st st'.

Definition extends_with {W} (P : Event -> Prop) (st st' : St W) : Prop :=
  exists evs, trace st' = trace st ++ evs /\ Forall P evs.

Definition same_tasks {W} (st st' : St W) : Prop :=
  background_tasks st' = background_tasks st.

(** The submissions among the events all have a null image URL. *)
Definition null_image_url (ev : Event) : Prop :=
  match ev with
  | EGetVideo _ url _ _ _ => url = None
  | _ => True
  end.

(** The events of [create_video] other than the submission. *)
Definition file_or_download (ev : Event) : Prop :=
  match ev with
  | EGet _ | ETempFile _ | EWrite _ | ERemove _ => True
  | _ => False
  end.

(** The tasks [create_video] schedules for a request that got this id. *)
Definition scheduled (request : VideoRequest) (tid : Z) : list BackgroundTask :=
  match webhook_url request with
  | Some url => [{| bg_task_id := tid; bg_webhook_url := url |}]
  | None => []
  end.

(** ** The rest of the service *)

(** [poll_webhook.py], lines 6-7: [main] awaits the poll loop. *)
Definition main {W} `{Collab : Collaborators W}
    (fuel : nat) (tid : Z) (url : string) (st : St W) : Run * St W :=
  poll_and_notify fuel tid url st.

Definition same_files_tasks {W} (st st' : St W) : Prop :=
  files st' = files st /\ background_tasks st' = background_tasks st.

(** The bodies the poll loop may post for the task [tid]. *)
Definition webhook_body `{Collab : Collaborators W} (tid : Z) (body : payload)
  : Prop :=
  (exists urls, body = completed_payload (JInt tid) urls) \/
  body = failed_payload (JInt tid) \/
  (exists e, body = error_payload (JInt tid) e).

(** The events of a poll loop for the task [tid] and the webhook [url]. *)
Definition poll_event `{Collab : Collaborators W} (tid : Z) (url : string)
    (ev : Event) : Prop :=
  match ev with
  | EFetchMetadata t => t = JInt tid
  | EFetchVideoUrl _ => True
  | ESleep seconds => seconds = 5
  | EPost u body => u = url /\ webhook_body tid body
  | _ => False
  end.

(** The events of a status query for the task [tid]. *)
Definition query_event (tid : string) (ev : Event) : Prop :=
  match ev with
  | EFetchMetadata t => t = JStr tid
  | EFetchVideoUrl _ => True
  | _ => False
  end.

(** The events of [create_video]. *)
Definition creation_event (ev : Event) : Prop :=
  match ev with
  | EGetVideo _ url _ _ _ => url = None
  | ev => file_or_download ev
  end.

(** The events of the preprocessing of the image. *)
Definition download_event (ev : Event) : Prop :=
  match ev with
  | EGet _ | ETempFile _ | EWrite _ => True
  | _ => False
  end.

(** How a pass that leaves the loop relates the state [st] it started in
    to its result [r] and the state [st'] it ends in: one poll, lookups,
    then one delivery or two, the second being the error payload that
    follows a POST that raised; an exception only when the delivery of the
    error payload raised it. *)
Definition leaves_loop `{Collab : Collaborators W} (tid : Z) (url : string)
    (st : St W) (r : Exc LoopExit) (st' : St W) : Prop :=
  r <> Ok Continue /\
  exists ids body rest,
    trace st' =
      trace st ++ EFetchMetadata (JInt tid) :: map EFetchVideoUrl ids
               ++ EPost url body :: rest /\
    webhook_body tid body /\
    (rest = [] \/
     exists e w, rest = [EPost url (error_payload (JInt tid) e)] /\
                 fst (http_post url body w) = Raise e) /\
    same_files_tasks st st' /\
    (forall e', r = Raise e' ->
       exists e0 w pre,
         http_post url (error_payload (JInt tid) e0) w = (Raise e', world st') /\
         trace st' = pre ++ [EPost url (error_payload (JInt tid) e0)]).

Definition with_auto_extend (b : bool) (request : VideoRequest) : VideoRequest :=
  {| prompt := prompt request;
     image_url := image_url request;
     image_path := image_path request;
     is_high_quality := is_high_quality request;
     auto_extend := b;
     model_name := model_name request;
     webhook_url := webhook_url request |}.

(** More scripted worlds: the GET of the image answers [r]. *)
Definition with_get (r : Exc Response) (w : Scripted.Script) : Scripted.Script :=
  {| Scripted.metadata_answers := Scripted.metadata_answers w;
     Scripted.url_answer := Scripted.url_answer w;
     Scripted.submit_answer := Scripted.submit_answer w;
     Scripted.get_answer := fun _ => r;
     Scripted.write_answer := Scripted.write_answer w;
     Scripted.stem_answer := Scripted.stem_answer w;
     Scripted.slept := Scripted.slept w |}.

Definition not_found_response : Response :=
  {| status_error := Some (Exception "Client error '404 Not Found'");
     content_type_header := Some "text/html";
     content := "" |}.

(** Metadata of a completed task whose second work has no id. *)
Definition second_work_without_id : Metadata :=
  {| works := Some [ {| workId := Some 1 |}; {| workId := None |};
                     {| workId := Some 3 |} ] |}.

(** * Properties *)

Lemma count_app f (tr1 tr2 : list Event) :
  count f (tr1 ++ tr2) = (count f tr1 + count f tr2)%nat.
Proof. unfold count. by rewrite filter_app, length_app. Qed.

Lemma count_cons f ev (tr : list Event) :
  count f (ev :: tr) = ((if f ev then 1 else 0) + count f tr)%nat.
Proof.
  unfold count. destruct (f ev) eqn:Hf.
  - by rewrite filter_cons_True.
  - rewrite filter_cons_False; [done|]. by rewrite Hf.
Qed.

Lemma count_lookups_post f (ids : list Z) :
  (forall id, f (EFetchVideoUrl id) = false) ->
  count f (map EFetchVideoUrl ids) = 0%nat.
Proof.
  intros Hf. induction ids as [|id ids IH]; [done|].
  unfold count in *. simpl. rewrite filter_cons_False; [done|].
  rewrite Hf. done.
Qed.

(** ** The extension of a fetched image *)

(** ** Strings *)

Lemma append_cons x (a b : string) : String x a +:+ b = String x (a +:+ b).
Proof. reflexivity. Qed.

Lemma append_nil (b : string) : "" +:+ b = b.
Proof. reflexivity. Qed.

(** [String.append] does not unfold under [simpl]. *)
Ltac unfold_append := rewrite ?append_cons, ?append_nil; simpl.


Lemma append_nil_r (a : string) : a +:+ "" = a.
Proof. induction a as [|x a IH]; unfold_append; [done|]. by rewrite IH. Qed.





(** ** [rfind] *)






(** ** The loop over the characters before the dot *)



(** ** [os.path.splitext] against the words of the spec *)








(** ** Containment *)

Lemma prefix_append pat after : String.prefix pat (pat +:+ after) = true.
Proof.
  induction pat as [|a pat IH]; unfold_append; [by destruct after|].
  by destruct (ascii_dec a a).
Qed.

Lemma prefix_split pat : forall s,
  String.prefix pat s = true -> exists after, s = pat +:+ after.
Proof.
  induction pat as [|a pat IH]; intros s Hprefix; simpl in *.
  - by exists s.
  - destruct s as [|b s]; simpl in Hprefix; [done|].
    destruct (ascii_dec a b) as [->|]; [|done].
    destruct (IH s Hprefix) as [after ->]. by exists after.
Qed.



(** ** The order of the three steps *)



(** ** The poll loop *)

Section PollLoop.
Context {W : Type} `{Collab : Collaborators W}.

Lemma post_run url body (st : St W) :
  post url body st =
  (fst (http_post url body (world st)),
   mkSt (snd (http_post url body (world st))) (files st)
        (trace st ++ [EPost url body]) (background_tasks st)).
Proof. unfold post, call. by destruct (http_post url body (world st)). Qed.

Lemma collect_returns ws ids answers w w' :
  lookups_return ws ids answers w w' ->
  forall acc fs tr bg,
    collect_video_urls ws acc (mkSt w fs tr bg) =
    (Ok (acc ++ resolved answers),
     mkSt w' fs (tr ++ map EFetchVideoUrl ids) bg).
Proof.
  induction 1 as [w|id ws ids a answers w w1 w' Hfetch _ IH]; intros acc fs tr bg.
  - simpl. by rewrite !app_nil_r.
  - simpl. unfold mbind, M_bind, call. simpl. rewrite Hfetch.
    destruct a as [resource status]. rewrite IH. unfold resolved. simpl.
    destruct resource as [u|]; simpl.
    + destruct (negb (u =? "")%string); simpl;
        by rewrite <- !app_assoc.
    + by rewrite <- !app_assoc.
Qed.

(** Whatever the lookups answer, the loop over the works only looks works
    up: it neither posts, polls nor sleeps. *)
Lemma collect_events ws : forall acc (st : St W) r st',
  collect_video_urls ws acc st = (r, st') ->
  exists ids,
    trace st' = trace st ++ map EFetchVideoUrl ids /\
    files st' = files st /\
    background_tasks st' = background_tasks st.
Proof.
  induction ws as [|work ws IH]; intros acc st r st' Hrun.
  - inversion Hrun; subst. exists []. by rewrite app_nil_r.
  - simpl in Hrun. unfold mbind, M_bind, subscript_workId in Hrun.
    destruct (workId work) as [id|]; simpl in Hrun.
    + unfold call in Hrun.
      destruct (fetch_video_url id (world st)) as [[[resource status]|e] w1];
        simpl in Hrun.
      * apply IH in Hrun as (ids & Htr & Hfs & Hbg). simpl in *.
        exists (id :: ids). rewrite Htr. by rewrite <- app_assoc.
      * inversion Hrun; subst. by exists [id].
    + inversion Hrun; subst. exists []. by rewrite app_nil_r.
Qed.

Lemma pending_iteration tid url (st : St W) data w1 :
  fetch_metadata (JInt tid) (world st) = (Ok (data, PENDING), w1) ->
  poll_iteration tid url st =
  (Ok Continue,
   mkSt (asyncio_sleep 5 w1) (files st)
        (trace st ++ [EFetchMetadata (JInt tid); ESleep 5])
        (background_tasks st)).
Proof.
  intros Hfetch.
  unfold poll_iteration, try_except, poll_body, mbind, M_bind, call, sleep.
  simpl. rewrite Hfetch. simpl. by rewrite <- app_assoc.
Qed.

(** The [except] clause makes one delivery attempt, of the error payload,
    and leaves the loop. *)
Lemma handler_run tid url e (st : St W) :
  exists r st',
    poll_handler tid url e st = (r, st') /\
    trace st' = trace st ++ [EPost url (error_payload (JInt tid) e)] /\
    (r = Ok Break \/ exists e', r = Raise e').
Proof.
  unfold poll_handler, mbind, M_bind. rewrite post_run.
  destruct (http_post url (error_payload (JInt tid) e) (world st)) as [[[]|e'] w1];
    simpl; eauto 10.
Qed.

(** As long as the provider answers "pending", the loop keeps polling and
    delivers nothing. *)
Lemma pending_run tid url k w w' :
  pending_polls tid k w w' ->
  forall fuel fs tr bg,
    poll_and_notify (k + fuel) tid url (mkSt w fs tr bg) =
    poll_and_notify fuel tid url (mkSt w' fs (tr ++ pending_events tid k) bg).
Proof.
  induction 1 as [w|k w data w1 w' Hfetch _ IH]; intros fuel fs tr bg.
  - simpl. by rewrite app_nil_r.
  - simpl. erewrite pending_iteration by exact Hfetch. simpl.
    rewrite IH. by rewrite <- app_assoc.
Qed.

(** A pass that does not continue ends the run, whatever fuel is left. *)
Lemma leaving_iteration tid url (st st' : St W) r :
  poll_iteration tid url st = (r, st') ->
  r <> Ok Continue ->
  exists out,
    (forall fuel, poll_and_notify (S fuel) tid url st = (Finished out, st')) /\
    (r = Ok Break /\ out = Ok tt \/ exists e, r = Raise e /\ out = Raise e).
Proof.
  intros Hit Hleave. destruct r as [[]|e].
  - exists (Ok tt). split; [|by left]. intros fuel. simpl. by rewrite Hit.
  - done.
  - exists (Raise e). split; [|right; by exists e]. intros fuel. simpl. by rewrite Hit.
Qed.

(** A pass whose [try] block raises runs the [except] clause. *)
Lemma raising_iteration tid url (st st1 : St W) e :
  poll_body tid url st = (Raise e, st1) ->
  poll_iteration tid url st = poll_handler tid url e st1.
Proof. intros Hbody. unfold poll_iteration, try_except. by rewrite Hbody. Qed.

Lemma fetch_raises_body tid url (st : St W) e w1 :
  fetch_metadata (JInt tid) (world st) = (Raise e, w1) ->
  poll_body tid url st =
  (Raise e,
   mkSt w1 (files st) (trace st ++ [EFetchMetadata (JInt tid)])
        (background_tasks st)).
Proof.
  intros Hfetch. unfold poll_body, mbind, M_bind, call. by rewrite Hfetch.
Qed.

(** A delivery inside the [try] block: the payload is posted once; if
    that raises, the [except] clause posts the error payload. *)
Lemma delivering_iteration tid url body (st : St W) :
  exists r st' rest,
    try_except (post url body;; mret Break) (poll_handler tid url) st = (r, st') /\
    r <> Ok Continue /\
    trace st' = trace st ++ [EPost url body] ++ rest /\
    (rest = [] \/ exists e, rest = [EPost url (error_payload (JInt tid) e)]).
Proof.
  unfold try_except, mbind, M_bind. rewrite post_run.
  destruct (http_post url body (world st)) as [[[]|e] w1]; simpl.
  - exists (Ok Break), (mkSt w1 (files st) (trace st ++ [EPost url body])
                          (background_tasks st)), [].
    simpl. eauto 10.
  - destruct (handler_run tid url e
                (mkSt w1 (files st) (trace st ++ [EPost url body])
                      (background_tasks st))) as (r & st' & Hrun & Htr & Hr).
    exists r, st', [EPost url (error_payload (JInt tid) e)].
    simpl in Htr. rewrite Hrun, Htr, <- app_assoc.
    repeat split; eauto. destruct Hr as [->|[e' ->]]; done.
Qed.

Lemma failed_iteration tid url (st : St W) data w1 :
  fetch_metadata (JInt tid) (world st) = (Ok (data, FAILED), w1) ->
  poll_iteration tid url st =
  try_except (post url (failed_payload (JInt tid));; mret Break)
             (poll_handler tid url)
             (mkSt w1 (files st) (trace st ++ [EFetchMetadata (JInt tid)])
                   (background_tasks st)).
Proof.
  intros Hfetch.
  unfold poll_iteration, poll_body, try_except, mbind, M_bind, call.
  by rewrite Hfetch.
Qed.

Lemma completed_iteration tid url (st : St W) data w1 ids answers w2 :
  fetch_metadata (JInt tid) (world st) = (Ok (data, COMPLETED), w1) ->
  lookups_return (get_works data) ids answers w1 w2 ->
  poll_iteration tid url st =
  try_except
    (post url (completed_payload (JInt tid) (resolved answers));; mret Break)
    (poll_handler tid url)
    (mkSt w2 (files st)
          (trace st ++ EFetchMetadata (JInt tid) :: map EFetchVideoUrl ids)
          (background_tasks st)).
Proof.
  intros Hfetch Hlookups.
  unfold poll_iteration, poll_body, try_except, mbind, M_bind, call.
  rewrite Hfetch. simpl.
  rewrite (collect_returns _ _ _ _ _ Hlookups). simpl.
  by rewrite <- app_assoc.
Qed.

(** C3: when a failure is raised during a poll attempt (by the metadata
    query, by a lookup, or anywhere else in the [try] block), the loop posts
    the payload with status "error" and the description [str(e)] of the
    failure, and the run is over whatever fuel is left: nothing follows the
    post.  The status of this payload differs from the status of the payload
    posted for a task the provider declares failed. *)
Theorem poll_failure_posts_error tid url (st st1 : St W) e :
  poll_body tid url st = (Raise e, st1) ->
  exists out st',
    (forall fuel, poll_and_notify (S fuel) tid url st = (Finished out, st')) /\
    trace st' = trace st1 ++ [EPost url (error_payload (JInt tid) e)] /\
    payload_get "status" (error_payload (JInt tid) e) = Some (JStr "error") /\
    payload_get "error" (error_payload (JInt tid) e) = Some (JStr (str e)) /\
    (forall tid',
        payload_get "status" (failed_payload tid')
        <> payload_get "status" (error_payload (JInt tid) e)) /\
    (forall w1, fetch_metadata (JInt tid) (world st) = (Raise e, w1) ->
                trace st1 = trace st ++ [EFetchMetadata (JInt tid)]).
Proof.
  intros Hbody.
  destruct (handler_run tid url e st1) as (r & st' & Hrun & Htr & Hr).
  assert (Hit : poll_iteration tid url st = (r, st')).
  { by rewrite (raising_iteration _ _ _ _ _ Hbody). }
  destruct (leaving_iteration _ _ _ _ _ Hit) as (out & Hout & _).
  { destruct Hr as [->|[e' ->]]; done. }
  exists out, st'. repeat split; try done.
  intros w1 Hfetch.
  rewrite (fetch_raises_body _ url _ _ _ Hfetch) in Hbody.
  by inversion Hbody.
Qed.

(** C5: when a poll finds the task FAILED, the loop posts the payload with
    the task id, status "failed" and error "Video generation failed", and
    the run is over whatever fuel is left: what follows the post is at most
    the post of the [except] clause, never a poll or a sleep. *)
Theorem failed_posts_failed tid url (st : St W) data w1 :
  fetch_metadata (JInt tid) (world st) = (Ok (data, FAILED), w1) ->
  exists out st' rest,
    (forall fuel, poll_and_notify (S fuel) tid url st = (Finished out, st')) /\
    trace st' =
      trace st ++
      [EFetchMetadata (JInt tid);
       EPost url [("task_id", JInt tid); ("status", JStr "failed");
                  ("error", JStr "Video generation failed")]] ++ rest /\
    count is_poll rest = 0%nat /\
    count is_sleep rest = 0%nat /\
    (rest = [] \/ exists e, rest = [EPost url (error_payload (JInt tid) e)]).
Proof.
  intros Hfetch.
  pose proof (failed_iteration tid url st data w1 Hfetch) as Hit.
  destruct (delivering_iteration tid url (failed_payload (JInt tid))
              (mkSt w1 (files st) (trace st ++ [EFetchMetadata (JInt tid)])
                    (background_tasks st)))
    as (r & st' & rest & Hrun & Hleave & Htr & Hrest).
  rewrite Hrun in Hit.
  destruct (leaving_iteration _ _ _ _ _ Hit Hleave) as (out & Hout & _).
  exists out, st', rest. split; [done|]. split.
  { rewrite Htr. simpl. by rewrite <- app_assoc. }
  destruct Hrest as [->|[e ->]]; repeat split; eauto.
Qed.

(** C4: when the provider answers PENDING, PENDING and then COMPLETED with
    works that resolve to [u1; u2], the loop sleeps twice, 5 each time, and
    then posts the payload with status "completed" and video_urls
    [u1; u2]; that payload is posted once and the run is over. *)
Theorem pending_pending_completed tid url (st : St W)
    d1 d2 d3 w1 w2 w3 w4 ids answers u1 u2 :
  fetch_metadata (JInt tid) (world st) = (Ok (d1, PENDING), w1) ->
  fetch_metadata (JInt tid) (asyncio_sleep 5 w1) = (Ok (d2, PENDING), w2) ->
  fetch_metadata (JInt tid) (asyncio_sleep 5 w2) = (Ok (d3, COMPLETED), w3) ->
  lookups_return (get_works d3) ids answers w3 w4 ->
  resolved answers = [u1; u2] ->
  exists out st' rest,
    (forall fuel, poll_and_notify (3 + fuel) tid url st = (Finished out, st')) /\
    trace st' =
      trace st ++
      [EFetchMetadata (JInt tid); ESleep 5;
       EFetchMetadata (JInt tid); ESleep 5;
       EFetchMetadata (JInt tid)] ++
      map EFetchVideoUrl ids ++
      [EPost url [("task_id", JInt tid); ("status", JStr "completed");
                  ("video_urls", JList [u1; u2])]] ++ rest /\
    count is_sleep (trace st') = (count is_sleep (trace st) + 2)%nat /\
    count (is_post_with_status "completed") (trace st') =
      (count (is_post_with_status "completed") (trace st) + 1)%nat /\
    (rest = [] \/ exists e, rest = [EPost url (error_payload (JInt tid) e)]).
Proof.
  intros H1 H2 H3 Hlookups Hurls.
  destruct st as [w fs tr bg]; simpl in H1.
  set (st := mkSt w fs tr bg).
  assert (Hpending : pending_polls tid 2 w (asyncio_sleep 5 w2)).
  { eapply pending_S; [exact H1|]. eapply pending_S; [exact H2|]. constructor. }
  set (st2 := mkSt (asyncio_sleep 5 w2) (files st)
                   (trace st ++ pending_events tid 2) (background_tasks st)).
  pose proof (completed_iteration tid url st2 d3 w3 ids answers w4 H3 Hlookups)
    as Hit.
  destruct (delivering_iteration tid url
              (completed_payload (JInt tid) (resolved answers))
              (mkSt w4 (files st2)
                    (trace st2 ++ EFetchMetadata (JInt tid) :: map EFetchVideoUrl ids)
                    (background_tasks st2)))
    as (r & st' & rest & Hrun & Hleave & Htr & Hrest).
  rewrite Hrun in Hit.
  destruct (leaving_iteration _ _ _ _ _ Hit Hleave) as (out & Hout & _).
  assert (Htrace : trace st' =
      trace st ++
      [EFetchMetadata (JInt tid); ESleep 5;
       EFetchMetadata (JInt tid); ESleep 5;
       EFetchMetadata (JInt tid)] ++
      map EFetchVideoUrl ids ++
      [EPost url (completed_payload (JInt tid) [u1; u2])] ++ rest).
  { rewrite Htr, Hurls. subst st2. simpl. rewrite <- ?app_assoc. simpl.
    by rewrite <- ?app_assoc. }
  exists out, st', rest. split; [|split; [exact Htrace|]].
  - intros fuel.
    replace (3 + fuel)%nat with (2 + S fuel)%nat by lia.
    subst st.
    rewrite (pending_run tid url 2 _ _ Hpending (S fuel) fs tr bg).
    apply Hout.
  - rewrite Htrace. rewrite !count_app.
    rewrite !count_lookups_post by done.
    destruct Hrest as [->|[e ->]]; (split; [|split]); eauto;
      unfold count; simpl; lia.
Qed.

Lemma resolved_app answers1 answers2 :
  resolved (answers1 ++ answers2) = resolved answers1 ++ resolved answers2.
Proof. unfold resolved. apply omap_app. Qed.

Lemma count_pending_events tid k :
  count is_post (pending_events tid k) = 0%nat /\
  count is_poll (pending_events tid k) = k /\
  count is_sleep (pending_events tid k) = k.
Proof.
  induction k as [|k (IHpost & IHpoll & IHsleep)]; [done|].
  simpl. rewrite !count_cons, IHpost, IHpoll, IHsleep. done.
Qed.

(** With a webhook that never raises, a pass that does not find the task
    pending makes one delivery attempt, its last act, and leaves the loop. *)
Lemma terminal_iteration tid url (st : St W) r w1 :
  (forall body w, fst (http_post url body w) = Ok tt) ->
  fetch_metadata (JInt tid) (world st) = (r, w1) ->
  (forall data, r <> Ok (data, PENDING)) ->
  exists st' ids body,
    poll_iteration tid url st = (Ok Break, st') /\
    trace st' =
      trace st ++ EFetchMetadata (JInt tid) :: map EFetchVideoUrl ids
               ++ [EPost url body].
Proof.
  intros Hreliable Hfetch Hterminal.
  assert (Hpost : forall body (s : St W),
             (post url body;; mret Break) s =
             (Ok Break,
              mkSt (snd (http_post url body (world s))) (files s)
                   (trace s ++ [EPost url body]) (background_tasks s))).
  { intros body s. unfold mbind, M_bind. rewrite post_run, Hreliable. done. }
  unfold poll_iteration, try_except, poll_body, poll_handler.
  unfold mbind at 1. unfold M_bind at 1. unfold call at 1. rewrite Hfetch.
  destruct r as [[data status]|e]; simpl.
  - destruct status.
    + by destruct (Hterminal data).
    + unfold mbind at 1. unfold M_bind at 1.
      destruct (collect_video_urls (get_works data) []
                  (mkSt w1 (files st) (trace st ++ [EFetchMetadata (JInt tid)])
                        (background_tasks st))) as [[urls|e] st1] eqn:Hcollect;
        apply collect_events in Hcollect as (ids & Htr & _ & _);
        simpl in Htr; rewrite Hpost; simpl; rewrite Htr;
        eexists _, ids, _; (split; [reflexivity|]);
        by rewrite <- !app_assoc.
    + rewrite Hpost. simpl. eexists _, [], _. split; [reflexivity|].
      by rewrite <- !app_assoc.
  - rewrite Hpost. simpl. eexists _, [], _. split; [reflexivity|].
    by rewrite <- !app_assoc.
Qed.

(** Once the provider has stopped answering "pending", the run is over,
    with one delivery attempt as its last event, if the webhook does not
    raise. *)
Lemma terminal_run tid url k (st : St W) w' r w1 :
  (forall body w, fst (http_post url body w) = Ok tt) ->
  pending_polls tid k (world st) w' ->
  fetch_metadata (JInt tid) w' = (r, w1) ->
  (forall data, r <> Ok (data, PENDING)) ->
  exists st' ids body,
    (forall fuel,
        poll_and_notify (k + S fuel) tid url st = (Finished (Ok tt), st')) /\
    trace st' =
      trace st ++ pending_events tid k
               ++ EFetchMetadata (JInt tid) :: map EFetchVideoUrl ids
               ++ [EPost url body].
Proof.
  intros Hreliable Hpending Hfetch Hterminal.
  destruct st as [w fs tr bg]; simpl in Hpending.
  destruct (terminal_iteration tid url
              (mkSt w' fs (tr ++ pending_events tid k) bg) r w1
              Hreliable Hfetch Hterminal) as (st' & ids & body & Hit & Htr).
  exists st', ids, body. split.
  - intros fuel. rewrite (pending_run tid url k _ _ Hpending (S fuel) fs tr bg).
    simpl. by rewrite Hit.
  - rewrite Htr. simpl. by rewrite <- app_assoc.
Qed.

(** Before that, the loop is still polling and has delivered nothing. *)
Lemma pending_only_run tid url k w w' :
  pending_polls tid k w w' ->
  forall fuel fs tr bg,
    (fuel <= k)%nat ->
    exists st',
      poll_and_notify fuel tid url (mkSt w fs tr bg) = (StillPolling, st') /\
      trace st' = tr ++ pending_events tid fuel.
Proof.
  induction 1 as [w|k w data w1 w' Hfetch _ IH]; intros fuel fs tr bg Hfuel.
  - assert (fuel = 0%nat) as -> by lia. simpl. eexists. split; [done|].
    simpl. by rewrite app_nil_r.
  - destruct fuel as [|fuel].
    { simpl. eexists. split; [done|]. simpl. by rewrite app_nil_r. }
    simpl. erewrite pending_iteration by exact Hfetch. simpl.
    destruct (IH fuel fs (tr ++ [EFetchMetadata (JInt tid); ESleep 5]) bg)
      as (st' & Hrun & Htr); [lia|].
    exists st'. split; [done|]. rewrite Htr. by rewrite <- app_assoc.
Qed.

(** C2: when the provider reports COMPLETED and every lookup returns, the
    works are looked up in the order of the metadata and the URLs that come
    out are the truthy resources in that order: an answer without a
    resource ([None] or the empty string, whatever its status) contributes
    nothing and changes neither the other URLs nor the "completed" state.
    This holds for the poll loop and for the status query alike. *)
Theorem completed_omits_missing_resources
    tid stid url (st : St W) data w1 ids answers w2 :
  fetch_metadata (JInt tid) (world st) = (Ok (data, COMPLETED), w1) ->
  fetch_metadata (JStr stid) (world st) = (Ok (data, COMPLETED), w1) ->
  lookups_return (get_works data) ids answers w1 w2 ->
  (exists r st' rest,
      poll_iteration tid url st = (r, st') /\
      r <> Ok Continue /\
      trace st' =
        trace st ++ EFetchMetadata (JInt tid) :: map EFetchVideoUrl ids
                 ++ [EPost url [("task_id", JInt tid);
                                ("status", JStr "completed");
                                ("video_urls", JList (resolved answers))]]
                 ++ rest) /\
  get_video_status stid st =
    (Ok [("task_id", JStr stid); ("status", JStr "completed");
         ("video_urls", JList (resolved answers))],
     mkSt w2 (files st)
          (trace st ++ EFetchMetadata (JStr stid) :: map EFetchVideoUrl ids)
          (background_tasks st)) /\
  (forall before resource status after,
      answers = before ++ (resource, status) :: after ->
      truthy resource = false ->
      resolved answers = resolved before ++ resolved after) /\
  (forall before u status after,
      answers = before ++ (Some u, status) :: after ->
      u <> "" ->
      resolved answers = resolved before ++ u :: resolved after) /\
  (forall u1 s1 resource s2 u3 s3,
      answers = [(Some u1, s1); (resource, s2); (Some u3, s3)] ->
      u1 <> "" -> u3 <> "" -> truthy resource = false ->
      resolved answers = [u1; u3]).
Proof.
  intros Hpoll Hquery Hlookups.
  assert (Hskip : forall resource status,
             truthy resource = false -> resolved [(resource, status)] = []).
  { intros resource status Hfalsy. unfold resolved. simpl. by rewrite Hfalsy. }
  assert (Hkeep : forall u status, u <> "" -> resolved [(Some u, status)] = [u]).
  { intros u status Hu. unfold resolved. simpl.
    by apply String.eqb_neq in Hu as ->. }
  split; [|split; [|split; [|split]]].
  - rewrite (completed_iteration tid url st data w1 ids answers w2 Hpoll Hlookups).
    destruct (delivering_iteration tid url
                (completed_payload (JInt tid) (resolved answers))
                (mkSt w2 (files st)
                      (trace st ++ EFetchMetadata (JInt tid) :: map EFetchVideoUrl ids)
                      (background_tasks st)))
      as (r & st' & rest & Hrun & Hleave & Htr & _).
    exists r, st', rest. split; [done|]. split; [done|].
    rewrite Htr. simpl. by rewrite <- !app_assoc.
  - unfold get_video_status, try_except, mbind, M_bind, call.
    rewrite Hquery. simpl.
    rewrite (collect_returns _ _ _ _ _ Hlookups). simpl.
    by rewrite <- app_assoc.
  - intros before resource status after -> Hfalsy.
    change ((resource, status) :: after) with ([(resource, status)] ++ after).
    by rewrite !resolved_app, Hskip.
  - intros before u status after -> Hu.
    change ((Some u, status) :: after) with ([(Some u, status)] ++ after).
    by rewrite !resolved_app, Hkeep.
  - intros u1 s1 resource s2 u3 s3 -> Hu1 Hu3 Hfalsy.
    change (resolved ([(Some u1, s1)] ++ [(resource, s2)] ++ [(Some u3, s3)])
            = [u1; u3]).
    by rewrite !resolved_app, !Hkeep, Hskip.
Qed.

End PollLoop.

(** ** More on the poll loop *)

Section PollRuns.
Context {W : Type} `{Collab : Collaborators W}.

(** The [except] clause, with what it does to the world. *)
Lemma handler_cases tid url e (st : St W) :
  exists r st',
    poll_handler tid url e st = (r, st') /\
    trace st' = trace st ++ [EPost url (error_payload (JInt tid) e)] /\
    same_files_tasks st st' /\
    (r = Ok Break \/
     exists e', r = Raise e' /\
       http_post url (error_payload (JInt tid) e) (world st)
       = (Raise e', world st')).
Proof.
  unfold poll_handler, mbind, M_bind. rewrite post_run.
  destruct (http_post url (error_payload (JInt tid) e) (world st))
    as [[[]|e'] w1]; simpl; eexists _, _; (split; [reflexivity|]);
    (split; [done|]); (split; [done|]); eauto.
Qed.

(** A delivery inside the [try] block, with what it does to the world. *)
Lemma delivery_cases tid url body (st : St W) :
  exists r st' rest,
    try_except (post url body;; mret Break) (poll_handler tid url) st = (r, st') /\
    r <> Ok Continue /\
    trace st' = trace st ++ EPost url body :: rest /\
    (rest = [] \/
     exists e, rest = [EPost url (error_payload (JInt tid) e)] /\
               fst (http_post url body (world st)) = Raise e) /\
    same_files_tasks st st' /\
    (forall e', r = Raise e' ->
       exists e0 w pre,
         http_post url (error_payload (JInt tid) e0) w = (Raise e', world st') /\
         trace st' = pre ++ [EPost url (error_payload (JInt tid) e0)]).
Proof.
  unfold try_except, mbind, M_bind. rewrite post_run.
  destruct (http_post url body (world st)) as [[[]|e] w1] eqn:Hpost; simpl.
  - eexists _, _, []. split; [reflexivity|]. simpl.
    repeat split; eauto; done.
  - destruct (handler_cases tid url e
                (mkSt w1 (files st) (trace st ++ [EPost url body])
                      (background_tasks st)))
      as (r & st' & Hrun & Htr & [Hfs Hbg] & Hr).
    simpl in *. exists r, st', [EPost url (error_payload (JInt tid) e)].
    rewrite Hrun, Htr, <- app_assoc.
    split; [done|]. split; [by destruct Hr as [->|(e' & -> & _)]|].
    split; [done|]. split; [eauto|]. split; [done|].
    intros e' ->. destruct Hr as [?|(e'' & Heq & Hraise)]; [done|].
    inversion Heq; subst e''.
    exists e, w1, (trace st ++ [EPost url body]). by rewrite <- app_assoc.
Qed.

(** One pass through the loop: either the task is pending, or the pass
    leaves the loop after one or two deliveries. *)
Lemma iteration_cases tid url (st : St W) :
  (exists data w1,
      fetch_metadata (JInt tid) (world st) = (Ok (data, PENDING), w1) /\
      poll_iteration tid url st =
      (Ok Continue,
       mkSt (asyncio_sleep 5 w1) (files st)
            (trace st ++ [EFetchMetadata (JInt tid); ESleep 5])
            (background_tasks st))) \/
  (exists r st', poll_iteration tid url st = (r, st') /\
                 leaves_loop tid url st r st').
Proof.
  assert (Hhandler : forall e ids (st1 : St W),
    trace st1 = trace st ++ EFetchMetadata (JInt tid) :: map EFetchVideoUrl ids ->
    same_files_tasks st st1 ->
    exists r st', poll_handler tid url e st1 = (r, st') /\
                  leaves_loop tid url st r st').
  { intros e ids st1 Htr1 [Hfs1 Hbg1].
    destruct (handler_cases tid url e st1) as (r & st' & Hrun & Htr & [Hfs Hbg] & Hr).
    exists r, st'. split; [done|].
    split; [by destruct Hr as [->|(e' & -> & _)]|].
    exists ids, (error_payload (JInt tid) e), [].
    split; [rewrite Htr, Htr1; by rewrite <- app_assoc|].
    split; [right; right; by exists e|]. split; [by left|].
    split; [split; congruence|].
    intros e' ->. destruct Hr as [?|(e'' & Heq & Hraise)]; [done|].
    inversion Heq; subst e''. by exists e, (world st1), (trace st1). }
  assert (Hdelivery : forall body ids (st1 : St W),
    webhook_body tid body ->
    trace st1 = trace st ++ EFetchMetadata (JInt tid) :: map EFetchVideoUrl ids ->
    same_files_tasks st st1 ->
    exists r st',
      try_except (post url body;; mret Break) (poll_handler tid url) st1 = (r, st') /\
      leaves_loop tid url st r st').
  { intros body ids st1 Hbody Htr1 [Hfs1 Hbg1].
    destruct (delivery_cases tid url body st1)
      as (r & st' & rest & Hrun & Hleave & Htr & Hrest & [Hfs Hbg] & Hraise).
    exists r, st'. split; [done|]. split; [done|].
    exists ids, body, rest.
    split; [rewrite Htr, Htr1; by rewrite <- app_assoc|].
    split; [done|].
    split; [destruct Hrest as [?|(e & ? & ?)];
            [by left|right; by exists e, (world st1)]|].
    split; [split; congruence|done]. }
  destruct (fetch_metadata (JInt tid) (world st)) as [[[data status]|e] w1] eqn:Hfetch.
  - destruct status.
    + left. exists data, w1. split; [done|].
      by apply (pending_iteration tid url st data w1).
    + right.
      unfold poll_iteration, try_except, poll_body.
      unfold mbind at 1. unfold M_bind at 1. unfold call at 1.
      rewrite Hfetch. simpl.
      unfold mbind at 1. unfold M_bind at 1.
      destruct (collect_video_urls (get_works data) []
                  (mkSt w1 (files st) (trace st ++ [EFetchMetadata (JInt tid)])
                        (background_tasks st))) as [[urls|e] st1] eqn:Hcollect;
        apply collect_events in Hcollect as (ids & Htr1 & Hfs1 & Hbg1);
        simpl in Htr1, Hfs1, Hbg1.
      * apply (Hdelivery _ ids st1);
          [left; by exists urls|rewrite Htr1; by rewrite <- app_assoc|done].
      * apply (Hhandler e ids st1);
          [rewrite Htr1; by rewrite <- app_assoc|done].
    + right. rewrite (failed_iteration tid url st data w1 Hfetch).
      apply (Hdelivery _ [] _); [right; by left|done|done].
  - right.
    rewrite (raising_iteration tid url st _ e (fetch_raises_body tid url st e w1 Hfetch)).
    apply (Hhandler e [] _); done.
Qed.

(** Every run is some passes that found the task pending, followed, if
    the run is finished, by one pass that left the loop. *)
Lemma run_cases tid url fuel : forall (st : St W) out st',
  poll_and_notify fuel tid url st = (out, st') ->
  exists k st_k,
    (k <= fuel)%nat /\
    pending_polls tid k (world st) (world st_k) /\
    trace st_k = trace st ++ pending_events tid k /\
    same_files_tasks st st_k /\
    ((out = StillPolling /\ k = fuel /\ st' = st_k) \/
     (exists r, (k < fuel)%nat /\
                poll_iteration tid url st_k = (r, st') /\
                leaves_loop tid url st_k r st' /\
                out = Finished (match r with
                                | Ok _ => Ok tt
                                | Raise e => Raise e
                                end))).
Proof.
  induction fuel as [|fuel IH]; intros st out st' Hrun.
  - inversion Hrun; subst. exists 0%nat, st'.
    split; [done|]. split; [constructor|]. simpl. rewrite app_nil_r.
    split; [done|]. split; [done|]. by left.
  - simpl in Hrun.
    destruct (iteration_cases tid url st)
      as [(data & w1 & Hfetch & Hit)|(r & st1 & Hit & Hleave)];
      rewrite Hit in Hrun.
    + apply IH in Hrun as (k & st_k & Hk & Hpending & Htr & [Hfs Hbg] & Hout).
      simpl in *. exists (S k), st_k.
      split; [lia|]. split; [by eapply pending_S|].
      split; [rewrite Htr; by rewrite <- app_assoc|]. split; [done|].
      destruct Hout as [(-> & -> & ->)|(r & Hlt & Hrest)].
      * by left.
      * right. exists r. split; [lia|done].
    + assert (st' = st1 /\
              out = Finished (match r with
                              | Ok _ => Ok tt
                              | Raise e => Raise e
                              end)) as [-> ->].
      { destruct Hleave as [Hne _].
        destruct r as [[]|e]; by inversion Hrun. }
      exists 0%nat, st. split; [lia|]. split; [constructor|].
      simpl. rewrite app_nil_r. split; [done|]. split; [done|].
      right. exists r. split; [lia|]. done.
Qed.

Lemma pending_events_poll_event tid url k :
  Forall (poll_event tid url) (pending_events tid k).
Proof. induction k as [|k IH]; [done|]. simpl. by repeat constructor. Qed.

Lemma lookups_poll_event tid url ids :
  Forall (poll_event tid url) (map EFetchVideoUrl ids).
Proof. induction ids as [|id ids IH]; [done|]. by constructor. Qed.

(** X1: a run that is still polling when its fuel is spent has polled the
    task once per pass, found it pending each time and slept 5 after each
    poll; it has delivered nothing. *)
Theorem still_polling_run tid url fuel (st st' : St W) :
  poll_and_notify fuel tid url st = (StillPolling, st') ->
  trace st' = trace st ++ pending_events tid fuel /\
  pending_polls tid fuel (world st) (world st') /\
  count is_post (trace st') = count is_post (trace st) /\
  count is_poll (trace st') = (count is_poll (trace st) + fuel)%nat /\
  count is_sleep (trace st') = (count is_sleep (trace st) + fuel)%nat.
Proof.
  intros Hrun.
  destruct (run_cases _ _ _ _ _ _ Hrun)
    as (k & st_k & _ & Hpending & Htr & _ & [(_ & -> & ->)|(r & _ & _ & _ & ?)]);
    [|done].
  split; [done|]. split; [done|].
  rewrite Htr, !count_app.
  destruct (count_pending_events tid fuel) as (-> & -> & ->). lia.
Qed.

(** X2: a finished run is a number of passes that found the task pending,
    then one poll, the lookups of its works and one delivery or two, the
    second being the error payload; nothing follows the deliveries.  So a
    finished run has made at least one delivery attempt and at most two, and
    one poll more than it has slept. *)
Theorem finished_run tid url fuel (st st' : St W) out :
  poll_and_notify fuel tid url st = (Finished out, st') ->
  exists k ids body rest,
    (k < fuel)%nat /\
    trace st' =
      trace st ++ pending_events tid k
               ++ EFetchMetadata (JInt tid) :: map EFetchVideoUrl ids
               ++ EPost url body :: rest /\
    webhook_body tid body /\
    (rest = [] \/ exists e, rest = [EPost url (error_payload (JInt tid) e)]) /\
    (1 <= count is_post (trace st') - count is_post (trace st) <= 2)%nat /\
    count is_poll (trace st') = (count is_poll (trace st) + k + 1)%nat /\
    count is_sleep (trace st') = (count is_sleep (trace st) + k)%nat.
Proof.
  intros Hrun.
  destruct (run_cases _ _ _ _ _ _ Hrun)
    as (k & st_k & _ & _ & Htrk & _ & [(? & _)|(r & Hlt & _ & Hleave & _)]);
    [done|].
  destruct Hleave as (_ & ids & body & rest & Htr & Hbody & Hrest & _).
  exists k, ids, body, rest. split; [done|].
  assert (Htrace : trace st' =
            trace st ++ pending_events tid k
                     ++ EFetchMetadata (JInt tid) :: map EFetchVideoUrl ids
                     ++ EPost url body :: rest).
  { rewrite Htr, Htrk. by rewrite <- app_assoc. }
  split; [done|]. split; [done|].
  split; [destruct Hrest as [?|(e & _ & ? & _)]; eauto|].
  rewrite Htrace, !count_app, !count_cons, !count_app, !count_cons.
  rewrite !count_lookups_post by done.
  destruct (count_pending_events tid k) as (-> & -> & ->).
  destruct Hrest as [->|(e & w & -> & _)]; simpl;
    repeat change (count ?f []) with 0%nat; rewrite ?count_cons; simpl;
    repeat change (count ?f []) with 0%nat; lia.
Qed.

(** Fuel only bounds a run: a run that is finished stays the same run
    with any larger fuel. *)
Lemma enough_fuel tid url fuel : forall fuel' (st st' : St W) out,
  poll_and_notify fuel tid url st = (Finished out, st') ->
  (fuel <= fuel')%nat ->
  poll_and_notify fuel' tid url st = (Finished out, st').
Proof.
  induction fuel as [|fuel IH]; intros fuel' st st' out Hrun Hle; [done|].
  destruct fuel' as [|fuel']; [lia|].
  simpl in *.
  destruct (poll_iteration tid url st) as [[[]|e] st1]; try done.
  apply IH; [done|lia].
Qed.

(** X3: the loop lets no failure of the provider escape.  The only
    exception a run ends with is one raised by the delivery of the error
    payload, which is then the last event of the run. *)
Theorem escaping_exception tid url fuel (st st' : St W) e :
  poll_and_notify fuel tid url st = (Finished (Raise e), st') ->
  exists e0 w pre,
    http_post url (error_payload (JInt tid) e0) w = (Raise e, world st') /\
    trace st' = pre ++ [EPost url (error_payload (JInt tid) e0)].
Proof.
  intros Hrun.
  destruct (run_cases _ _ _ _ _ _ Hrun)
    as (k & st_k & _ & _ & _ & _ & [(? & _)|(r & _ & _ & Hleave & Hout)]);
    [done|].
  destruct Hleave as (_ & ids & body & rest & _ & _ & _ & _ & Hraise).
  apply Hraise. destruct r as [[]|e']; by inversion Hout.
Qed.

(** X4: whatever the provider and the webhook do, the poll loop polls its
    own task only, sleeps 5 only, posts to its own webhook only, each body
    being the completed, the failed or the error payload of the task; it
    neither downloads, submits, creates or removes a file nor schedules a
    task. *)
Theorem poll_loop_frame tid url fuel (st : St W) :
  extends_with (poll_event tid url) st (snd (poll_and_notify fuel tid url st)) /\
  same_files_tasks st (snd (poll_and_notify fuel tid url st)).
Proof.
  destruct (poll_and_notify fuel tid url st) as [out st'] eqn:Hrun. simpl.
  destruct (run_cases _ _ _ _ _ _ Hrun)
    as (k & st_k & _ & _ & Htrk & [Hfs Hbg]
        & [(_ & _ & ->)|(r & _ & _ & Hleave & _)]).
  - split; [|done]. exists (pending_events tid k).
    split; [done|apply pending_events_poll_event].
  - destruct Hleave
      as (_ & ids & body & rest & Htr & Hbody & Hrest & [Hfs' Hbg'] & _).
    split; [|split; congruence].
    exists (pending_events tid k
            ++ EFetchMetadata (JInt tid) :: map EFetchVideoUrl ids
            ++ EPost url body :: rest).
    split; [rewrite Htr, Htrk; by rewrite <- app_assoc|].
    apply Forall_app. split; [apply pending_events_poll_event|].
    constructor; [done|]. apply Forall_app.
    split; [apply lookups_poll_event|].
    constructor; [done|].
    destruct Hrest as [->|(e & w & -> & _)]; [done|].
    constructor; [|done]. split; [done|]. right; right. by exists e.
Qed.

End PollRuns.

(** ** Frame rules *)

Section Frames.
Context {W : Type} `{Collab : Collaborators W}.
Context (R : St W -> St W -> Prop).
Hypothesis R_refl : forall st, R st st.
Hypothesis R_trans : forall st1 st2 st3, R st1 st2 -> R st2 st3 -> R st1 st3.

Lemma respects_mret {A} (a : A) : respects R (mret a : M W A).
Proof. intros st r st' Hrun. inversion Hrun; subst. apply R_refl. Qed.

Lemma respects_raise {A} e : respects R (raise e : M W A).
Proof. intros st r st' Hrun. inversion Hrun; subst. apply R_refl. Qed.

Lemma respects_bind {A B} (m : M W A) (k : A -> M W B) :
  respects R m -> (forall a, respects R (k a)) -> respects R (m ≫= k).
Proof.
  intros Hm Hk st r st' Hrun. unfold mbind, M_bind in Hrun.
  destruct (m st) as [[a|e] st1] eqn:Hmrun.
  - eapply R_trans; [by eapply Hm|by eapply Hk].
  - inversion Hrun; subst. by eapply Hm.
Qed.

Lemma respects_try_except {A} (body : M W A) handler :
  respects R body -> (forall e, respects R (handler e)) ->
  respects R (try_except body handler).
Proof.
  intros Hbody Hhandler st r st' Hrun. unfold try_except in Hrun.
  destruct (body st) as [[a|e] st1] eqn:Hbrun.
  - inversion Hrun; subst. by eapply Hbody.
  - eapply R_trans; [by eapply Hbody|by eapply Hhandler].
Qed.

Lemma respects_try_finally {A} (body : M W A) final :
  respects R body -> respects R final -> respects R (try_finally body final).
Proof.
  intros Hbody Hfinal st r st' Hrun. unfold try_finally in Hrun.
  destruct (body st) as [r1 st1] eqn:Hbrun.
  destruct (final st1) as [r2 st2] eqn:Hfrun.
  assert (st' = st2) as -> by (destruct r2; by inversion Hrun).
  eapply R_trans; [by eapply Hbody|by eapply Hfinal].
Qed.

(** The steps of [create_video] before the scheduling, given that [R]
    holds across its downloads, file operations and submissions. *)
Hypothesis R_get : forall url, respects R (call (EGet url) (http_get url)).
Hypothesis R_write : forall name body,
  respects R (call (EWrite name) (file_write name body)).
Hypothesis R_temp : forall suffix, respects R (named_temporary_file suffix).
Hypothesis R_remove : forall path, respects R (os_remove path : M W unit).
Hypothesis R_submit : forall p path hq model,
  respects R (call (EGetVideo p None path hq model)
                   (get_video p None path hq model)).

Lemma download_image_respects request : respects R (download_image request).
Proof.
  unfold download_image.
  destruct (image_url request) as [url|]; [|apply respects_mret].
  destruct (truthy (Some url)); [|apply respects_mret].
  apply respects_bind; [apply R_get|]. intros response.
  apply respects_bind.
  { unfold raise_for_status.
    destruct (status_error response); [apply respects_raise|apply respects_mret]. }
  intros _. apply respects_bind; [apply R_temp|].
  intros name. apply respects_bind; [apply R_write|].
  intros _. apply respects_mret.
Qed.

Lemma submit_respects request : respects R (submit request).
Proof.
  unfold submit. apply respects_try_finally.
  - apply respects_try_except; [apply R_submit|].
    intros e. apply respects_raise.
  - unfold cleanup. destruct (image_path request) as [path|];
      [|apply respects_mret].
    destruct (truthy (Some path) && is_none (image_url request));
      [apply R_remove|apply respects_mret].
Qed.

End Frames.

(** ** Creating a job *)

Section CreateVideo.
Context {W : Type} `{Collab : Collaborators W}.

Lemma extends_refl P (st : St W) : extends_with P st st.
Proof. exists []. by rewrite app_nil_r. Qed.

Lemma extends_trans P (st1 st2 st3 : St W) :
  extends_with P st1 st2 -> extends_with P st2 st3 -> extends_with P st1 st3.
Proof.
  intros (evs1 & Htr1 & HP1) (evs2 & Htr2 & HP2).
  exists (evs1 ++ evs2). rewrite Htr2, Htr1, <- app_assoc.
  split; [done|]. by apply Forall_app.
Qed.

Lemma call_extends {A} P ev (f : W -> Exc A * W) :
  P ev -> respects (extends_with P) (call ev f).
Proof.
  intros Hev st r st' Hrun. unfold call in Hrun.
  destruct (f (world st)) as [r1 w1]. inversion Hrun; subst.
  exists [ev]. split; [done|]. by constructor.
Qed.

Lemma call_same_tasks {A} ev (f : W -> Exc A * W) :
  respects same_tasks (call ev f).
Proof.
  intros st r st' Hrun. unfold call in Hrun.
  destruct (f (world st)) as [r1 w1]. by inversion Hrun; subst.
Qed.

Lemma temp_extends P suffix :
  (forall name, P (ETempFile name)) ->
  respects (extends_with P) (named_temporary_file suffix).
Proof.
  intros Hev st r st' Hrun. unfold named_temporary_file in Hrun.
  destruct (temp_stem suffix (world st)) as [[stem|e] w1];
    inversion Hrun; subst.
  - eexists [_]. split; [done|]. by constructor.
  - exists []. simpl. by rewrite app_nil_r.
Qed.

Lemma temp_same_tasks suffix :
  respects same_tasks (named_temporary_file suffix).
Proof.
  intros st r st' Hrun. unfold named_temporary_file in Hrun.
  destruct (temp_stem suffix (world st)) as [[stem|e] w1];
    by inversion Hrun; subst.
Qed.

Lemma remove_extends P path :
  P (ERemove path) -> respects (extends_with P) (os_remove path : M W unit).
Proof.
  intros Hev st r st' Hrun. unfold os_remove in Hrun.
  destruct (decide (path ∈ files st)); inversion Hrun; subst;
    (exists [ERemove path]; split; [done|]; by constructor).
Qed.

Lemma remove_same_tasks path : respects same_tasks (os_remove path : M W unit).
Proof.
  intros st r st' Hrun. unfold os_remove in Hrun.
  destruct (decide (path ∈ files st)); by inversion Hrun; subst.
Qed.

Lemma download_image_keeps request :
  respects same_tasks (download_image request).
Proof.
  apply download_image_respects; try done;
    intros; try apply call_same_tasks; try apply temp_same_tasks.
  unfold same_tasks in *. congruence.
Qed.

Lemma submit_keeps request : respects same_tasks (submit request).
Proof.
  apply submit_respects; try done;
    intros; try apply call_same_tasks; try apply remove_same_tasks.
  unfold same_tasks in *. congruence.
Qed.

(** The events of [create_video]: a download, a temporary file, a write,
    removals and submissions, all of the latter with a null image URL.  It
    never posts, polls, looks a work up or sleeps. *)
Lemma create_video_events P request :
  (forall ev, file_or_download ev -> P ev) ->
  (forall p path hq model, P (EGetVideo p None path hq model)) ->
  respects (extends_with P) (create_video request).
Proof.
  intros Hfile Hsubmit. unfold create_video.
  pose proof (extends_refl P) as Hrefl.
  pose proof (extends_trans P) as Htrans.
  apply respects_try_except; [done| |intros; by apply respects_raise].
  apply respects_bind; [done| |].
  - apply download_image_respects; try done; intros;
      try apply call_extends; try apply temp_extends; intros;
      by apply Hfile.
  - intros request'. apply respects_bind; [done| |].
    + apply submit_respects; try done; intros;
        try apply remove_extends; try apply call_extends;
        try apply Hsubmit; by apply Hfile.
    + intros tid. apply respects_bind; [done| |].
      * destruct (webhook_url request');
          intros st r st' Hrun; inversion Hrun; subst; simpl;
          exists []; by rewrite app_nil_r.
      * intros; by apply respects_mret.
Qed.

(** Preprocessing touches the image fields of the request only. *)
Lemma download_image_request request (st st' : St W) request' :
  download_image request st = (Ok request', st') ->
  prompt request' = prompt request /\
  webhook_url request' = webhook_url request /\
  is_high_quality request' = is_high_quality request /\
  model_name request' = model_name request.
Proof.
  unfold download_image.
  destruct (image_url request) as [url|]; [|by inversion 1].
  destruct (truthy (Some url)); [|by inversion 1].
  unfold mbind, M_bind. intros Hrun.
  destruct (call (EGet url) (http_get url) st) as [[response|?] st1]; [|done].
  destruct (raise_for_status response st1) as [[?|?] st2]; [|done].
  destruct (named_temporary_file _ st2) as [[name|?] st3]; [|done].
  destruct (call (EWrite name) _ st3) as [[?|?] st4]; [|done].
  by inversion Hrun.
Qed.

(** [create_video] is preprocessing, then submission, then scheduling;
    whatever either of the first two raises becomes the client error 400. *)
Lemma create_video_unfold request (st : St W) :
  create_video request st =
  match download_image request st with
  | (Ok request', st1) =>
      match submit request' st1 with
      | (Ok tid, st2) =>
          (Ok {| task_id := tid |},
           mkSt (world st2) (files st2) (trace st2)
                (background_tasks st2 ++ scheduled request' tid))
      | (Raise e, st2) => (Raise (HTTPException 400 (str e)), st2)
      end
  | (Raise e, st1) => (Raise (HTTPException 400 (str e)), st1)
  end.
Proof.
  unfold create_video, try_except, mbind, M_bind, scheduled.
  destruct (download_image request st) as [[request'|e] st1]; [|done].
  destruct (submit request' st1) as [[tid|e] st2]; [|done].
  destruct (webhook_url request'); simpl; [done|].
  rewrite app_nil_r. by destruct st2.
Qed.

(** What [create_video] schedules: the poll loop of the new task when the
    request has a webhook URL, nothing otherwise, and nothing when the
    request is rejected. *)
Lemma create_video_schedules request (st st' : St W) r :
  create_video request st = (r, st') ->
  background_tasks st' =
  background_tasks st ++
  match r with
  | Ok response => scheduled request (task_id response)
  | Raise _ => []
  end.
Proof.
  rewrite create_video_unfold.
  destruct (download_image request st) as [[request'|e] st1] eqn:Hdl.
  - pose proof (download_image_keeps _ _ _ _ Hdl) as Hbg1.
    apply download_image_request in Hdl as (_ & Hhook & _).
    destruct (submit request' st1) as [[tid|e] st2] eqn:Hsub;
      pose proof (submit_keeps _ _ _ _ Hsub) as Hbg2;
      intros Hrun; inversion Hrun; subst; simpl.
    + unfold scheduled. by rewrite Hbg2, Hbg1, Hhook.
    + by rewrite app_nil_r, Hbg2, Hbg1.
  - pose proof (download_image_keeps _ _ _ _ Hdl) as Hbg1.
    intros Hrun; inversion Hrun; subst. by rewrite app_nil_r.
Qed.

Lemma removed_absent (fs : gset string) path : path ∉ fs ∖ {[path]}.
Proof. apply not_elem_of_difference. right. by apply elem_of_singleton. Qed.

Lemma remove_absent (fs : gset string) path :
  path ∉ fs -> fs ∖ {[path]} = fs.
Proof. intros Hout. by apply difference_disjoint_L, disjoint_singleton_r. Qed.

Lemma created_present (fs : gset string) name : name ∈ {[name]} ∪ fs.
Proof. apply elem_of_union_l. by apply elem_of_singleton. Qed.

Lemma truthy_nonempty s : s <> "" -> truthy (Some s) = true.
Proof. intros Hs. simpl. by apply String.eqb_neq in Hs as ->. Qed.

Lemma choose_extension_nonempty content_type path :
  choose_extension content_type path <> "".
Proof.
  unfold choose_extension.
  repeat (match goal with |- context [if ?b then _ else _] => destruct b eqn:? end);
    try done.
  by apply String.eqb_neq.
Qed.

Lemma append_nonempty stem suffix : suffix <> "" -> stem +:+ suffix <> "".
Proof. intros Hs. by destruct stem. Qed.

(** Preprocessing when the download, the creation of the temporary file
    and the write all succeed. *)
Lemma download_image_run request (st : St W) url response w1 stem w2 w3 :
  image_url request = Some url ->
  url <> "" ->
  http_get url (world st) = (Ok response, w1) ->
  status_error response = None ->
  temp_stem (choose_extension (default "" (content_type_header response))
                              (urlparse_path url)) w1 = (Ok stem, w2) ->
  file_write (stem +:+ choose_extension (default "" (content_type_header response))
                                        (urlparse_path url))
             (content response) w2 = (Ok tt, w3) ->
  let name := stem +:+ choose_extension (default "" (content_type_header response))
                                        (urlparse_path url) in
  download_image request st =
  (Ok (set_image request None (Some name)),
   mkSt w3 ({[name]} ∪ files st)
        (trace st ++ [EGet url; ETempFile name; EWrite name])
        (background_tasks st)).
Proof.
  intros Hurl Hne Hget Hstatus Hstem Hwrite name.
  unfold download_image. rewrite Hurl, (truthy_nonempty _ Hne).
  unfold mbind, M_bind, call, raise_for_status, named_temporary_file.
  rewrite Hget. simpl. rewrite Hstatus. simpl. rewrite Hstem. simpl.
  fold name. fold name in Hwrite. rewrite Hwrite. simpl.
  by rewrite <- !app_assoc.
Qed.

(** The submission of a request that has an image path and no image URL:
    whatever the provider answers, the file at the path is removed next. *)
Lemma submit_run request (st : St W) path sub w1 :
  image_url request = None ->
  image_path request = Some path ->
  path <> "" ->
  get_video (prompt request) None (Some path) (is_high_quality request)
            (model_name request) (world st) = (sub, w1) ->
  exists r,
    submit request st =
    (r, mkSt w1 (files st ∖ {[path]})
             (trace st ++ [EGetVideo (prompt request) None (Some path)
                                     (is_high_quality request) (model_name request);
                           ERemove path])
             (background_tasks st)) /\
    (path ∈ files st ->
     r = match sub with
         | Ok tid => Ok tid
         | Raise e => Raise (HTTPException 400 (str e))
         end).
Proof.
  intros Hurl Hpath Hne Hsub.
  unfold submit, try_finally, try_except, cleanup, call.
  rewrite Hpath, Hurl, (truthy_nonempty _ Hne), Hsub. simpl.
  unfold os_remove, log.
  destruct sub as [tid|e]; simpl;
    (destruct (decide (path ∈ files st)) as [Hin|Hout]; simpl;
     [|rewrite (remove_absent _ _ Hout)];
     rewrite <- !app_assoc; eexists; (split; [reflexivity|done])).
Qed.

(** C10: a request that brings its own image path and no image URL has
    the file at that path removed right after the submission attempt,
    whether the submission returned or raised. *)
Theorem caller_image_path_removed request (st : St W) path :
  image_url request = None ->
  image_path request = Some path ->
  path <> "" ->
  exists r st',
    create_video request st = (r, st') /\
    trace st' =
      trace st ++ [EGetVideo (prompt request) None (Some path)
                             (is_high_quality request) (model_name request);
                   ERemove path] /\
    files st' = files st ∖ {[path]} /\
    path ∉ files st'.
Proof.
  intros Hurl Hpath Hne.
  rewrite create_video_unfold.
  unfold download_image at 1. rewrite Hurl. simpl.
  destruct (get_video (prompt request) None (Some path)
              (is_high_quality request) (model_name request) (world st))
    as [sub w1] eqn:Hsub.
  destruct (submit_run request st path sub w1 Hurl Hpath Hne Hsub)
    as (r & -> & _).
  destruct r as [tid|e]; (eexists; eexists; split; [reflexivity|]); simpl;
    (split; [done|]); (split; [done|]); apply removed_absent.
Qed.

(** A request whose image was downloaded: the temporary file is gone when
    [create_video] is over, whether the submission returned or raised. *)
Lemma downloaded_image_removed request (st : St W) url response w1 stem w2 w3 :
  image_url request = Some url ->
  url <> "" ->
  http_get url (world st) = (Ok response, w1) ->
  status_error response = None ->
  temp_stem (choose_extension (default "" (content_type_header response))
                              (urlparse_path url)) w1 = (Ok stem, w2) ->
  file_write (stem +:+ choose_extension (default "" (content_type_header response))
                                        (urlparse_path url))
             (content response) w2 = (Ok tt, w3) ->
  let name := stem +:+ choose_extension (default "" (content_type_header response))
                                        (urlparse_path url) in
  exists r st',
    create_video request st = (r, st') /\
    trace st' =
      trace st ++ [EGet url; ETempFile name; EWrite name;
                   EGetVideo (prompt request) None (Some name)
                             (is_high_quality request) (model_name request);
                   ERemove name] /\
    (name ∉ files st') /\
    (forall sub w4,
        get_video (prompt request) None (Some name) (is_high_quality request)
                  (model_name request) w3 = (sub, w4) ->
        r = match sub with
            | Ok tid => Ok {| task_id := tid |}
            | Raise e => Raise (HTTPException 400 (http_exception_str 400 (str e)))
            end).
Proof.
  intros Hurl Hne Hget Hstatus Hstem Hwrite name.
  rewrite create_video_unfold.
  rewrite (download_image_run request st url response w1 stem w2 w3
             Hurl Hne Hget Hstatus Hstem Hwrite).
  fold name.
  assert (Hname : name <> "") by apply append_nonempty, choose_extension_nonempty.
  set (st1 := mkSt w3 ({[name]} ∪ files st)
                   (trace st ++ [EGet url; ETempFile name; EWrite name])
                   (background_tasks st)).
  destruct (get_video (prompt request) None (Some name)
              (is_high_quality request) (model_name request) w3)
    as [sub w4] eqn:Hsub.
  destruct (submit_run (set_image request None (Some name)) st1 name sub w4
              eq_refl eq_refl Hname Hsub) as (r & Hrun & Hr).
  rewrite Hrun.
  assert (Hin : name ∈ files st1) by (subst st1; apply created_present).
  specialize (Hr Hin). subst r.
  destruct sub as [tid|e]; (eexists; eexists; split; [reflexivity|]); simpl;
    rewrite <- !app_assoc; (split; [done|]); (split; [apply removed_absent|]);
    intros sub' w4' Hsub'; by inversion Hsub'.
Qed.

(** C7: for a request with a (non-empty) image URL whose image is
    downloaded and stored, the request that leaves preprocessing has no
    image URL and the non-empty name of the temporary file as its image
    path, so exactly one of the two is non-empty, and that is what the
    submission receives.  Whatever the request, every submission
    [create_video] makes has a null image URL. *)
Theorem one_image_source_after_preprocessing
    request (st : St W) url response w1 stem w2 w3 :
  image_url request = Some url ->
  url <> "" ->
  http_get url (world st) = (Ok response, w1) ->
  status_error response = None ->
  temp_stem (choose_extension (default "" (content_type_header response))
                              (urlparse_path url)) w1 = (Ok stem, w2) ->
  file_write (stem +:+ choose_extension (default "" (content_type_header response))
                                        (urlparse_path url))
             (content response) w2 = (Ok tt, w3) ->
  let name := stem +:+ choose_extension (default "" (content_type_header response))
                                        (urlparse_path url) in
  (exists request' st1,
      download_image request st = (Ok request', st1) /\
      image_url request' = None /\
      image_path request' = Some name /\
      truthy (image_url request') = false /\
      truthy (image_path request') = true) /\
  (exists r st' rest,
      create_video request st = (r, st') /\
      trace st' =
        trace st ++ [EGet url; ETempFile name; EWrite name;
                     EGetVideo (prompt request) None (Some name)
                               (is_high_quality request) (model_name request)]
                 ++ rest) /\
  (forall request0 (st0 : St W) r0 st0',
      create_video request0 st0 = (r0, st0') ->
      extends_with null_image_url st0 st0').
Proof.
  intros Hurl Hne Hget Hstatus Hstem Hwrite name.
  split; [|split].
  - eexists _, _. split.
    { apply (download_image_run request st url response w1 stem w2 w3); done. }
    simpl. repeat split.
    apply truthy_nonempty, append_nonempty, choose_extension_nonempty.
  - destruct (downloaded_image_removed request st url response w1 stem w2 w3
                Hurl Hne Hget Hstatus Hstem Hwrite)
      as (r & st' & Hrun & Htr & _).
    exists r, st', [ERemove name]. split; [done|].
    by rewrite Htr.
  - intros request0 st0 r0 st0' Hrun.
    eapply (create_video_events null_image_url); [| |exact Hrun].
    + by intros [].
    + done.
Qed.

(** C9: [create_video] does not look at the prompt.  For a request without
    an image, the prompt goes to the provider as it is, and the answer of
    the provider decides: a task id is returned to the client, an
    exception becomes the client error 400. *)
Theorem prompt_forwarded_unchecked request (st : St W) sub w1 :
  image_url request = None ->
  image_path request = None ->
  get_video (prompt request) None None (is_high_quality request)
            (model_name request) (world st) = (sub, w1) ->
  create_video request st =
  (match sub with
   | Ok tid => Ok {| task_id := tid |}
   | Raise e => Raise (HTTPException 400 (http_exception_str 400 (str e)))
   end,
   mkSt w1 (files st)
        (trace st ++ [EGetVideo (prompt request) None None
                                (is_high_quality request) (model_name request)])
        (background_tasks st ++
         match sub with
         | Ok tid => scheduled request tid
         | Raise _ => []
         end)).
Proof.
  intros Hurl Hpath Hsub.
  rewrite create_video_unfold.
  unfold download_image at 1. rewrite Hurl. simpl.
  unfold submit, try_finally, try_except, cleanup, call.
  rewrite Hpath, Hsub.
  destruct sub as [tid|e]; simpl; [done|].
  by rewrite app_nil_r.
Qed.

End CreateVideo.

(** ** From the request to the end of the poll loop *)

Section Lifecycle.
Context {W : Type} `{Collab : Collaborators W}.

Lemma count_none f (evs : list Event) :
  Forall (fun ev => f ev = false) evs -> count f evs = 0%nat.
Proof.
  induction 1 as [|ev evs Hev _ IH]; [done|].
  by rewrite count_cons, Hev, IH.
Qed.

(** [create_video] makes no delivery attempt and no poll. *)
Lemma create_video_silent request (st st' : St W) r :
  create_video request st = (r, st') ->
  count is_post (trace st') = count is_post (trace st) /\
  count is_poll (trace st') = count is_poll (trace st).
Proof.
  intros Hrun.
  assert (Hevents : extends_with
                      (fun ev => is_post ev = false /\ is_poll ev = false)
                      st st').
  { eapply create_video_events; [| |exact Hrun]; [by intros []|done]. }
  destruct Hevents as (evs & Htr & Hevs).
  assert (Hpost : count is_post evs = 0%nat).
  { apply count_none. eapply Forall_impl; [exact Hevs|]. by intros ev []. }
  assert (Hpoll : count is_poll evs = 0%nat).
  { apply count_none. eapply Forall_impl; [exact Hevs|]. by intros ev []. }
  rewrite Htr, !count_app, Hpost, Hpoll. lia.
Qed.

(** The run of the one task [create_video] has scheduled. *)
Lemma job_lifecycle_scheduled fuel request (st st1 : St W) response url :
  create_video request (mkSt (world st) (files st) (trace st) [])
  = (Ok response, st1) ->
  webhook_url request = Some url ->
  job_lifecycle fuel request st =
  (Ok response,
   snd (poll_and_notify fuel (task_id response) url
          (mkSt (world st1) (files st1) (trace st1) []))).
Proof.
  intros Hcreate Hhook. unfold job_lifecycle. rewrite Hcreate.
  rewrite (create_video_schedules _ _ _ _ Hcreate). simpl.
  unfold scheduled. rewrite Hhook. simpl.
  by destruct (poll_and_notify fuel (task_id response) url _) as [[[]|] ?].
Qed.

(** C1: a job created with a webhook URL has its poll loop scheduled.  If
    the provider answers "pending" [k] times and then anything else, every
    run of more than [k] passes ends, after [k + 1] polls, with a delivery
    attempt and polls no more; that attempt is the only one since the
    request arrived unless its POST raised, so it is the only one when the
    webhook does not raise.  As long as the provider answers "pending" the
    loop is still polling and has made no delivery attempt.  A job created
    without a webhook URL has no poll loop: no delivery attempt is ever
    made for it. *)
Theorem one_delivery_per_registered_job :
  (forall request (st st1 : St W) response url k w' r w1,
      create_video request (mkSt (world st) (files st) (trace st) [])
      = (Ok response, st1) ->
      webhook_url request = Some url ->
      pending_polls (task_id response) k (world st1) w' ->
      fetch_metadata (JInt (task_id response)) w' = (r, w1) ->
      (forall data, r <> Ok (data, PENDING)) ->
      exists out st' ids body rest,
        (forall fuel,
            poll_and_notify (k + S fuel) (task_id response) url
              (mkSt (world st1) (files st1) (trace st1) [])
            = (Finished out, st')) /\
        (forall fuel,
            job_lifecycle (k + S fuel) request st = (Ok response, st')) /\
        trace st' =
          trace st1 ++ pending_events (task_id response) k
                    ++ EFetchMetadata (JInt (task_id response))
                       :: map EFetchVideoUrl ids
                    ++ EPost url body :: rest /\
        (rest = [] \/
         exists e w,
           rest = [EPost url (error_payload (JInt (task_id response)) e)] /\
           fst (http_post url body w) = Raise e) /\
        ((forall b w, fst (http_post url b w) = Ok tt) -> rest = []) /\
        count is_post (trace st')
        = (count is_post (trace st) + 1 + length rest)%nat /\
        count is_poll (trace st') = (count is_poll (trace st) + k + 1)%nat) /\
  (forall request (st st1 : St W) response url k w',
      create_video request (mkSt (world st) (files st) (trace st) [])
      = (Ok response, st1) ->
      webhook_url request = Some url ->
      pending_polls (task_id response) k (world st1) w' ->
      forall fuel,
        (fuel <= k)%nat ->
        fst (poll_and_notify fuel (task_id response) url
               (mkSt (world st1) (files st1) (trace st1) [])) = StillPolling /\
        count is_post (trace (snd (job_lifecycle fuel request st)))
        = count is_post (trace st)) /\
  (forall request fuel (st : St W),
      webhook_url request = None ->
      count is_post (trace (snd (job_lifecycle fuel request st)))
      = count is_post (trace st)).
Proof.
  split; [|split].
  - intros request st st1 response url k w' r w1
      Hcreate Hhook Hpending Hfetch Hterminal.
    pose proof (create_video_silent _ _ _ _ Hcreate) as [Hposts Hpolls].
    simpl in Hposts, Hpolls.
    destruct (count_pending_events (task_id response) k)
      as (Hkpost & Hkpoll & _).
    set (tid := task_id response) in *.
    set (st_k := mkSt w' (files st1) (trace st1 ++ pending_events tid k) []).
    destruct (iteration_cases tid url st_k)
      as [(data & w2 & Hpend & _)|(r' & st' & Hit & Hleave)].
    { simpl in Hpend. rewrite Hfetch in Hpend. inversion Hpend; subst.
      by destruct (Hterminal data). }
    destruct Hleave as (Hne & ids & body & rest & Htr & _ & Hrest & _ & _).
    destruct (leaving_iteration _ _ _ _ _ Hit Hne) as (out & Hout & _).
    assert (Hrun : forall fuel,
               poll_and_notify (k + S fuel) tid url
                 (mkSt (world st1) (files st1) (trace st1) [])
               = (Finished out, st')).
    { intros fuel.
      rewrite (pending_run tid url k _ _ Hpending (S fuel) (files st1) (trace st1) []).
      apply Hout. }
    exists out, st', ids, body, rest.
    split; [done|]. split.
    { intros fuel.
      rewrite (job_lifecycle_scheduled _ _ _ _ _ _ Hcreate Hhook).
      fold tid. by rewrite Hrun. }
    assert (Htrace : trace st' =
              trace st1 ++ pending_events tid k
                        ++ EFetchMetadata (JInt tid) :: map EFetchVideoUrl ids
                        ++ EPost url body :: rest).
    { rewrite Htr. simpl. by rewrite <- app_assoc. }
    split; [done|]. split; [done|]. split.
    { intros Hreliable. destruct Hrest as [?|(e & w & _ & Hraise)]; [done|].
      by rewrite Hreliable in Hraise. }
    rewrite Htrace, !count_app, !count_cons, !count_app, !count_cons.
    rewrite !count_lookups_post by done.
    rewrite Hkpost, Hkpoll, Hposts, Hpolls.
    destruct Hrest as [->|(e & w & -> & _)]; simpl;
      repeat change (count ?f []) with 0%nat; rewrite ?count_cons; simpl;
      repeat change (count ?f []) with 0%nat; split; lia.
  - intros request st st1 response url k w' Hcreate Hhook Hpending fuel Hfuel.
    pose proof (create_video_silent _ _ _ _ Hcreate) as [Hposts _].
    simpl in Hposts.
    rewrite (job_lifecycle_scheduled _ _ _ _ _ _ Hcreate Hhook). simpl.
    destruct (pending_only_run (task_id response) url k _ _ Hpending
                fuel (files st1) (trace st1) [] Hfuel) as (st' & -> & Htr).
    simpl. split; [done|]. rewrite Htr, count_app, Hposts.
    destruct (count_pending_events (task_id response) fuel) as (-> & _). lia.
  - intros request0 fuel st0 Hnone. unfold job_lifecycle.
    destruct (create_video request0 _) as [r0 st0'] eqn:Hcreate0.
    pose proof (create_video_silent _ _ _ _ Hcreate0) as [Hposts0 _].
    rewrite (create_video_schedules _ _ _ _ Hcreate0). simpl.
    unfold scheduled. rewrite Hnone.
    by destruct r0.
Qed.

End Lifecycle.

(** ** The properties on the scripted world *)

Import Scripted.

Lemma poll_failure_posts_error_witness :
  poll_body 7 hook (start (script [Raise connection_reset]))
  = (Raise connection_reset,
     snd (poll_body 7 hook (start (script [Raise connection_reset])))) /\
  exists out st',
    (forall fuel,
        poll_and_notify (S fuel) 7 hook (start (script [Raise connection_reset]))
        = (Finished out, st')) /\
    trace st' = [EFetchMetadata (JInt 7);
                 EPost hook [("task_id", JInt 7); ("status", JStr "error");
                             ("error", JStr "connection reset")]].
Proof.
  assert (Hbody : poll_body 7 hook (start (script [Raise connection_reset]))
                  = (Raise connection_reset,
                     snd (poll_body 7 hook (start (script [Raise connection_reset])))))
    by reflexivity.
  split; [exact Hbody|].
  destruct (poll_failure_posts_error 7 hook _ _ _ Hbody)
    as (out & st' & Hrun & Htr & _).
  exists out, st'. split; [exact Hrun|exact Htr].
Defined.

Lemma failed_posts_failed_witness :
  fetch_metadata (JInt 7) (world (start (script [failed])))
  = (Ok (no_works, FAILED), script []) /\
  exists out st' rest,
    (forall fuel,
        poll_and_notify (S fuel) 7 hook (start (script [failed]))
        = (Finished out, st')) /\
    trace st' =
      [] ++
      [EFetchMetadata (JInt 7);
       EPost hook [("task_id", JInt 7); ("status", JStr "failed");
                   ("error", JStr "Video generation failed")]] ++ rest /\
    count is_poll rest = 0%nat /\
    count is_sleep rest = 0%nat /\
    (rest = [] \/ exists e, rest = [EPost hook (error_payload (JInt 7) e)]).
Proof.
  assert (Hfetch : fetch_metadata (JInt 7) (world (start (script [failed])))
                   = (Ok (no_works, FAILED), script [])) by reflexivity.
  split; [exact Hfetch|].
  exact (failed_posts_failed 7 hook (start (script [failed])) no_works
           (script []) Hfetch).
Defined.

Lemma pending_pending_completed_witness :
  exists out st' rest,
    (forall fuel,
        poll_and_notify (3 + fuel) 7 hook
          (start (script [pending; pending; completed [1; 3]]))
        = (Finished out, st')) /\
    trace st' =
      [] ++
      [EFetchMetadata (JInt 7); ESleep 5;
       EFetchMetadata (JInt 7); ESleep 5;
       EFetchMetadata (JInt 7)] ++
      map EFetchVideoUrl [1; 3] ++
      [EPost hook [("task_id", JInt 7); ("status", JStr "completed");
                   ("video_urls", JList [v1; v3])]] ++ rest /\
    count is_sleep (trace st') = (0 + 2)%nat /\
    count (is_post_with_status "completed") (trace st') = (0 + 1)%nat /\
    (rest = [] \/ exists e, rest = [EPost hook (error_payload (JInt 7) e)]).
Proof.
  refine (pending_pending_completed 7 hook
            (start (script [pending; pending; completed [1; 3]]))
            no_works no_works two_works
            (script [pending; completed [1; 3]])
            (pass_time 5 (script [completed [1; 3]]))
            (pass_time 5 (pass_time 5 (script [])))
            (pass_time 5 (pass_time 5 (script [])))
            [1; 3] [(Some v1, COMPLETED); (Some v3, COMPLETED)] v1 v3
            _ _ _ _ _); try reflexivity.
  apply lookups_cons with (w1 := pass_time 5 (pass_time 5 (script [])));
    [reflexivity|].
  apply lookups_cons with (w1 := pass_time 5 (pass_time 5 (script [])));
    [reflexivity|].
  apply lookups_nil.
Defined.

Lemma completed_omits_missing_resources_witness :
  lookups_return (get_works all_works) [1; 2; 3]
    [(Some v1, COMPLETED); (None, FAILED); (Some v3, COMPLETED)]
    (script []) (script []) /\
  get_video_status "7" (start (script [completed [1; 2; 3]])) =
    (Ok [("task_id", JStr "7"); ("status", JStr "completed");
         ("video_urls", JList [v1; v3])],
     mkSt (script []) ∅
          [EFetchMetadata (JStr "7"); EFetchVideoUrl 1; EFetchVideoUrl 2;
           EFetchVideoUrl 3] []).
Proof.
  assert (Hlookups :
            lookups_return (get_works all_works) [1; 2; 3]
              [(Some v1, COMPLETED); (None, FAILED); (Some v3, COMPLETED)]
              (script []) (script [])).
  { repeat (eapply lookups_cons; [reflexivity|]). apply lookups_nil. }
  split; [exact Hlookups|].
  exact (proj1 (proj2 (completed_omits_missing_resources 7 "7" hook
                         (start (script [completed [1; 2; 3]])) all_works
                         (script []) [1; 2; 3]
                         [(Some v1, COMPLETED); (None, FAILED); (Some v3, COMPLETED)]
                         (script []) eq_refl eq_refl Hlookups))).
Defined.

(** C2, as stated, fails: when the lookup of the second of three works
    raises, the status query answers the client error 400 and the poll loop
    posts the error payload; neither gives the first and third URLs. *)
Lemma lookup_failure_aborts_translation :
  fst (get_video_status "7"
         (start (with_lookups lookup_times_out (script [completed [1; 2; 3]]))))
  = Raise (HTTPException 400 "lookup timed out") /\
  trace (snd (poll_and_notify 1 7 hook
                (start (with_lookups lookup_times_out
                          (script [completed [1; 2; 3]])))))
  = [EFetchMetadata (JInt 7); EFetchVideoUrl 1; EFetchVideoUrl 2;
     EPost hook [("task_id", JInt 7); ("status", JStr "error");
                 ("error", JStr "lookup timed out")]].
Proof. split; reflexivity. Qed.

Lemma one_image_source_after_preprocessing_witness :
  http_get cat_url (world (start (script []))) = (Ok png_response, script []) /\
  (exists request' st1,
      download_image (image_request (Some cat_url) None) (start (script []))
      = (Ok request', st1) /\
      image_url request' = None /\
      image_path request' = Some "/tmp/tmpab12cd.png" /\
      truthy (image_url request') = false /\
      truthy (image_path request') = true).
Proof.
  split; [reflexivity|].
  exact (proj1 (one_image_source_after_preprocessing
                  (image_request (Some cat_url) None) (start (script []))
                  cat_url png_response (script []) "/tmp/tmpab12cd"
                  (script []) (script [])
                  eq_refl ltac:(discriminate) eq_refl eq_refl eq_refl eq_refl)).
Defined.

Lemma prompt_forwarded_unchecked_witness :
  create_video (text_request "" (Some hook)) (start (script [])) =
  (Ok {| task_id := 42 |},
   mkSt (script []) ∅ [EGetVideo "" None None true "1.5"]
        [{| bg_task_id := 42; bg_webhook_url := hook |}]).
Proof.
  exact (prompt_forwarded_unchecked (text_request "" (Some hook))
           (start (script [])) (Ok 42) (script []) eq_refl eq_refl eq_refl).
Defined.

(** C9, as stated, fails: a request with an empty prompt is not rejected
    when the provider accepts it; the client gets the task id. *)
Lemma empty_prompt_accepted :
  fst (create_video (text_request "" None) (start (script [])))
  = Ok {| task_id := 42 |}.
Proof. reflexivity. Qed.

Lemma caller_image_path_removed_witness :
  cat_path <> "" /\
  exists r st',
    create_video (image_request None (Some cat_path))
                 (mkSt (script []) {[cat_path]} [] []) = (r, st') /\
    trace st' = [] ++ [EGetVideo "a cat" None (Some cat_path) true "1.5";
                       ERemove cat_path] /\
    files st' = {[cat_path]} ∖ {[cat_path]} /\
    cat_path ∉ files st'.
Proof.
  assert (Hne : cat_path <> "") by discriminate.
  split; [exact Hne|].
  exact (caller_image_path_removed (image_request None (Some cat_path))
           (mkSt (script []) {[cat_path]} [] []) cat_path eq_refl eq_refl Hne).
Defined.

(** C6: the image is downloaded and its temporary file created, writing
    the body raises; [create_video] answers the client error 400 and the
    temporary file is still there. *)
Theorem temp_file_left_when_write_fails :
  fst (create_video (image_request (Some cat_url) None)
         (start (with_write (Raise no_space) (script []))))
  = Raise (HTTPException 400 "[Errno 28] No space left on device") /\
  trace (snd (create_video (image_request (Some cat_url) None)
                (start (with_write (Raise no_space) (script [])))))
  = [EGet cat_url; ETempFile "/tmp/tmpab12cd.png"; EWrite "/tmp/tmpab12cd.png"] /\
  "/tmp/tmpab12cd.png"
    ∈ files (snd (create_video (image_request (Some cat_url) None)
                    (start (with_write (Raise no_space) (script []))))).
Proof.
  split; [reflexivity|]. split; [reflexivity|].
  exact (created_present ∅ "/tmp/tmpab12cd.png").
Qed.

(** A provider whose script is exhausted answers "pending" for ever. *)
Lemma idle_provider_pending tid k : forall w,
  metadata_answers w = [] ->
  exists w', pending_polls tid k w w'.
Proof.
  induction k as [|k IH]; intros w Hidle.
  - exists w. constructor.
  - destruct (IH (pass_time 5 w) Hidle) as (w' & Hpending).
    exists w'. apply pending_S with (data := no_works) (w1 := w); [|done].
    simpl. unfold next_metadata. by rewrite Hidle.
Qed.

Lemma one_delivery_per_registered_job_witness :
  create_video (text_request "a cat" (Some hook))
               (start (script [pending; pending; failed]))
  = (Ok {| task_id := 42 |},
     mkSt (script [pending; pending; failed]) ∅
          [EGetVideo "a cat" None None true "1.5"]
          [{| bg_task_id := 42; bg_webhook_url := hook |}]) /\
  (forall body (w : Script), fst (http_post hook body w) = Ok tt) /\
  exists st' ids body,
    (forall fuel,
        job_lifecycle (2 + S fuel) (text_request "a cat" (Some hook))
                      (start (script [pending; pending; failed]))
        = (Ok {| task_id := 42 |}, st')) /\
    trace st' =
      [EGetVideo "a cat" None None true "1.5"]
      ++ pending_events 42 2
      ++ EFetchMetadata (JInt 42) :: map EFetchVideoUrl ids
      ++ [EPost hook body] /\
    count is_post (trace st') = 1%nat /\
    count is_poll (trace st') = 3%nat.
Proof.
  assert (Hreliable : forall body (w : Script),
             fst (http_post hook body w) = Ok tt) by reflexivity.
  assert (Hcreate :
            create_video (text_request "a cat" (Some hook))
                         (start (script [pending; pending; failed]))
            = (Ok {| task_id := 42 |},
               mkSt (script [pending; pending; failed]) ∅
                    [EGetVideo "a cat" None None true "1.5"]
                    [{| bg_task_id := 42; bg_webhook_url := hook |}]))
    by reflexivity.
  assert (Hpending :
            pending_polls 42 2 (script [pending; pending; failed])
                          (pass_time 5 (pass_time 5 (script [failed])))).
  { apply pending_S with (data := no_works)
                         (w1 := script [pending; failed]); [reflexivity|].
    apply pending_S with (data := no_works)
                         (w1 := pass_time 5 (script [failed])); [reflexivity|].
    apply pending_O. }
  split; [exact Hcreate|]. split; [exact Hreliable|].
  destruct (proj1 one_delivery_per_registered_job
              (text_request "a cat" (Some hook))
              (start (script [pending; pending; failed])) _
              {| task_id := 42 |} hook 2%nat _ failed
              (pass_time 5 (pass_time 5 (script [])))
              Hcreate eq_refl Hpending eq_refl ltac:(discriminate))
    as (out & st' & ids & body & rest & _ & Hlife & Htr & _ & Hone & Hposts & Hpolls).
  rewrite (Hone Hreliable) in Htr, Hposts.
  exists st', ids, body. split; [exact Hlife|]. split; [exact Htr|].
  split; [exact Hposts|exact Hpolls].
Defined.

(** C1, as stated, fails twice.  A task the provider keeps pending is
    polled for ever and nothing is ever delivered; and when the POST of the
    completed payload raises, the [except] clause makes a second delivery
    attempt. *)
Lemma delivery_attempts_not_one :
  (forall fuel,
      fst (poll_and_notify fuel 42 hook (start (script []))) = StillPolling /\
      count is_post
        (trace (snd (poll_and_notify fuel 42 hook (start (script [])))))
      = 0%nat) /\
  fst (poll_and_notify 1 42 dead_hook (start (script [completed [1; 3]])))
  = Finished (Raise (Exception "All connection attempts failed")) /\
  trace (snd (poll_and_notify 1 42 dead_hook
                (start (script [completed [1; 3]]))))
  = [EFetchMetadata (JInt 42); EFetchVideoUrl 1; EFetchVideoUrl 3;
     EPost dead_hook [("task_id", JInt 42); ("status", JStr "completed");
                      ("video_urls", JList [v1; v3])];
     EPost dead_hook [("task_id", JInt 42); ("status", JStr "error");
                      ("error", JStr "All connection attempts failed")]].
Proof.
  split; [|split; reflexivity].
  intros fuel.
  destruct (idle_provider_pending 42 fuel (script []) eq_refl)
    as (w' & Hpending).
  destruct (pending_only_run 42 hook fuel _ _ Hpending fuel ∅ [] [])
    as (st' & Hrun & Htr); [lia|].
  unfold start. rewrite Hrun. simpl. split; [done|].
  rewrite Htr. simpl.
  by destruct (count_pending_events 42 fuel) as (-> & _).
Qed.

(** ** The status query and the resolution of the works *)

Section StatusQuery.
Context {W : Type} `{Collab : Collaborators W}.

(** The loop over the works stops at the first work whose id is missing or
    whose lookup raises; the works after it are not looked up. *)
Lemma collect_aborts ws1 ids1 answers1 w1 w2 :
  lookups_return ws1 ids1 answers1 w1 w2 ->
  forall work ws2 acc fs tr bg,
    (workId work = None ->
     collect_video_urls (ws1 ++ work :: ws2) acc (mkSt w1 fs tr bg) =
     (Raise (Exception "'workId'"),
      mkSt w2 fs (tr ++ map EFetchVideoUrl ids1) bg)) /\
    (forall id e w3,
        workId work = Some id ->
        fetch_video_url id w2 = (Raise e, w3) ->
        collect_video_urls (ws1 ++ work :: ws2) acc (mkSt w1 fs tr bg) =
        (Raise e,
         mkSt w3 fs (tr ++ map EFetchVideoUrl (ids1 ++ [id])) bg)).
Proof.
  induction 1 as [w|id0 ws ids a answers w w1 w' Hfetch _ IH];
    intros work ws2 acc fs tr bg.
  - split.
    + intros Hnone. simpl. unfold mbind, M_bind, subscript_workId.
      rewrite Hnone. simpl. by rewrite app_nil_r.
    + intros id e w3 Hid Hraise. simpl.
      unfold mbind, M_bind, subscript_workId, call.
      rewrite Hid. simpl. by rewrite Hraise.
  - destruct a as [resource status].
    split.
    + intros Hnone. simpl. unfold mbind, M_bind, call. simpl. rewrite Hfetch.
      rewrite (proj1 (IH work ws2
                  (match resource with
                   | Some url => if truthy resource then acc ++ [url] else acc
                   | None => acc
                   end) fs (tr ++ [EFetchVideoUrl id0]) bg) Hnone).
      by rewrite <- app_assoc.
    + intros id e w3 Hid Hraise. simpl.
      unfold mbind, M_bind, call. simpl. rewrite Hfetch.
      rewrite (proj2 (IH work ws2
                  (match resource with
                   | Some url => if truthy resource then acc ++ [url] else acc
                   | None => acc
                   end) fs (tr ++ [EFetchVideoUrl id0]) bg) id e w3 Hid Hraise).
      by rewrite <- app_assoc.
Qed.

(** What the loop over the works raises was raised by a lookup, its last
    call, or is the [KeyError] of a work without an id. *)
Lemma collect_raises ws : forall acc (st st1 : St W) e,
  collect_video_urls ws acc st = (Raise e, st1) ->
  (exists id w, fetch_video_url id w = (Raise e, world st1)) \/
  e = Exception "'workId'".
Proof.
  induction ws as [|work ws IH]; intros acc st st1 e Hrun; [done|].
  simpl in Hrun. unfold mbind, M_bind, subscript_workId in Hrun.
  destruct (workId work) as [id|]; simpl in Hrun.
  - unfold call in Hrun.
    destruct (fetch_video_url id (world st)) as [[[resource status]|e1] w1] eqn:Hfetch;
      simpl in Hrun.
    + by apply IH in Hrun.
    + inversion Hrun; subst. left. by exists id, (world st).
  - inversion Hrun; subst. by right.
Qed.

(** A pass of the poll loop whose resolution of the works raises. *)
Lemma aborted_iteration tid url (st : St W) data w1 e st1 :
  fetch_metadata (JInt tid) (world st) = (Ok (data, COMPLETED), w1) ->
  collect_video_urls (get_works data) []
    (mkSt w1 (files st) (trace st ++ [EFetchMetadata (JInt tid)])
          (background_tasks st)) = (Raise e, st1) ->
  exists r st',
    poll_iteration tid url st = (r, st') /\
    r <> Ok Continue /\
    trace st' = trace st1 ++ [EPost url (error_payload (JInt tid) e)].
Proof.
  intros Hfetch Hcollect.
  assert (Hbody : poll_body tid url st = (Raise e, st1)).
  { unfold poll_body. unfold mbind at 1. unfold M_bind at 1. unfold call at 1.
    rewrite Hfetch. simpl. unfold mbind at 1. unfold M_bind at 1.
    by rewrite Hcollect. }
  rewrite (raising_iteration _ _ _ _ _ Hbody).
  destruct (handler_run tid url e st1) as (r & st' & Hrun & Htr & Hr).
  exists r, st'. split; [done|]. split; [|done].
  by destruct Hr as [->|[e' ->]].
Qed.

(** X5: a work of a completed task that has no ["workId"] ends the
    resolution: the status query answers the client error 400 and the poll
    loop posts the error payload, both with the text of the [KeyError]; the
    URLs resolved before are dropped and the works after it are not looked
    up. *)
Theorem missing_work_id_aborts
    tid stid url (st : St W) data w1 ws1 ws2 ids1 answers1 w2 :
  fetch_metadata (JInt tid) (world st) = (Ok (data, COMPLETED), w1) ->
  fetch_metadata (JStr stid) (world st) = (Ok (data, COMPLETED), w1) ->
  get_works data = ws1 ++ {| workId := None |} :: ws2 ->
  lookups_return ws1 ids1 answers1 w1 w2 ->
  get_video_status stid st =
    (Raise (HTTPException 400 "'workId'"),
     mkSt w2 (files st)
          (trace st ++ EFetchMetadata (JStr stid) :: map EFetchVideoUrl ids1)
          (background_tasks st)) /\
  exists r st',
    poll_iteration tid url st = (r, st') /\
    r <> Ok Continue /\
    trace st' =
      trace st ++ EFetchMetadata (JInt tid) :: map EFetchVideoUrl ids1
               ++ [EPost url [("task_id", JInt tid); ("status", JStr "error");
                              ("error", JStr "'workId'")]].
Proof.
  intros Hpoll Hquery Hworks Hlookups.
  split.
  - unfold get_video_status, try_except.
    unfold mbind at 1. unfold M_bind at 1. unfold call at 1.
    rewrite Hquery. simpl. unfold mbind at 1. unfold M_bind at 1.
    rewrite Hworks.
    rewrite (proj1 (collect_aborts _ _ _ _ _ Hlookups {| workId := None |} ws2 []
                (files st) (trace st ++ [EFetchMetadata (JStr stid)])
                (background_tasks st)) eq_refl).
    simpl. by rewrite <- app_assoc.
  - destruct (collect_aborts _ _ _ _ _ Hlookups {| workId := None |} ws2 []
                (files st) (trace st ++ [EFetchMetadata (JInt tid)])
                (background_tasks st)) as [Hcollect _].
    rewrite <- Hworks in Hcollect.
    destruct (aborted_iteration tid url st data w1 _ _ Hpoll (Hcollect eq_refl))
      as (r & st' & Hrun & Hleave & Htr).
    exists r, st'. split; [done|]. split; [done|].
    rewrite Htr. simpl. by rewrite <- !app_assoc.
Qed.

(** X6: a lookup that raises ends the resolution in the same way: the
    status query answers the client error 400 with the text of the
    exception, the poll loop posts it as the error payload, and the works
    after it are not looked up. *)
Theorem raising_lookup_aborts
    tid stid url (st : St W) data w1 ws1 ws2 ids1 answers1 w2 id e w3 :
  fetch_metadata (JInt tid) (world st) = (Ok (data, COMPLETED), w1) ->
  fetch_metadata (JStr stid) (world st) = (Ok (data, COMPLETED), w1) ->
  get_works data = ws1 ++ {| workId := Some id |} :: ws2 ->
  lookups_return ws1 ids1 answers1 w1 w2 ->
  fetch_video_url id w2 = (Raise e, w3) ->
  get_video_status stid st =
    (Raise (HTTPException 400 (str e)),
     mkSt w3 (files st)
          (trace st ++ EFetchMetadata (JStr stid)
                    :: map EFetchVideoUrl (ids1 ++ [id]))
          (background_tasks st)) /\
  exists r st',
    poll_iteration tid url st = (r, st') /\
    r <> Ok Continue /\
    trace st' =
      trace st ++ EFetchMetadata (JInt tid) :: map EFetchVideoUrl (ids1 ++ [id])
               ++ [EPost url [("task_id", JInt tid); ("status", JStr "error");
                              ("error", JStr (str e))]].
Proof.
  intros Hpoll Hquery Hworks Hlookups Hraise.
  split.
  - unfold get_video_status, try_except.
    unfold mbind at 1. unfold M_bind at 1. unfold call at 1.
    rewrite Hquery. simpl. unfold mbind at 1. unfold M_bind at 1.
    rewrite Hworks.
    rewrite (proj2 (collect_aborts _ _ _ _ _ Hlookups {| workId := Some id |} ws2 []
                (files st) (trace st ++ [EFetchMetadata (JStr stid)])
                (background_tasks st)) id e w3 eq_refl Hraise).
    simpl. by rewrite <- app_assoc.
  - destruct (collect_aborts _ _ _ _ _ Hlookups {| workId := Some id |} ws2 []
                (files st) (trace st ++ [EFetchMetadata (JInt tid)])
                (background_tasks st)) as [_ Hcollect].
    rewrite <- Hworks in Hcollect.
    destruct (aborted_iteration tid url st data w1 _ _ Hpoll
                (Hcollect id e w3 eq_refl Hraise))
      as (r & st' & Hrun & Hleave & Htr).
    exists r, st'. split; [done|]. split; [done|].
    rewrite Htr. simpl. by rewrite <- !app_assoc.
Qed.

(** X7: for a task that is not completed, the status query answers its
    status in lower case and an empty list of URLs, and looks no work up,
    whatever works the metadata lists. *)
Theorem status_query_not_completed stid (st : St W) data status w1 :
  fetch_metadata (JStr stid) (world st) = (Ok (data, status), w1) ->
  status <> COMPLETED ->
  get_video_status stid st =
  (Ok [("task_id", JStr stid);
       ("status", JStr (status_name_lower status));
       ("video_urls", JList [])],
   mkSt w1 (files st) (trace st ++ [EFetchMetadata (JStr stid)])
        (background_tasks st)).
Proof.
  intros Hfetch Hstatus.
  unfold get_video_status, try_except, mbind, M_bind, call.
  rewrite Hfetch. by destruct status.
Qed.

(** The status query, case by case. *)
Lemma status_query_cases stid (st : St W) r st' :
  get_video_status stid st = (r, st') ->
  (exists ids,
      trace st' = trace st ++ EFetchMetadata (JStr stid) :: map EFetchVideoUrl ids) /\
  same_files_tasks st st' /\
  match r with
  | Ok body =>
      exists status urls,
        body = [("task_id", JStr stid);
                ("status", JStr (status_name_lower status));
                ("video_urls", JList urls)] /\
        (status <> COMPLETED -> urls = [])
  | Raise e => exists e0, e = HTTPException 400 (str e0)
  end.
Proof.
  unfold get_video_status, try_except.
  unfold mbind at 1. unfold M_bind at 1. unfold call at 1.
  destruct (fetch_metadata (JStr stid) (world st)) as [[[data status]|e] w1].
  - simpl. unfold mbind at 1. unfold M_bind at 1.
    destruct status.
    + intros Hrun. inversion Hrun; subst. simpl.
      split; [by exists []|]. split; [done|]. by exists PENDING, [].
    + destruct (collect_video_urls (get_works data) [] _)
        as [[urls|e] st1] eqn:Hcollect;
        apply collect_events in Hcollect as (ids & Htr & Hfs & Hbg);
        simpl in Htr, Hfs, Hbg;
        intros Hrun; inversion Hrun; subst;
        (split; [exists ids; rewrite Htr; by rewrite <- app_assoc|]);
        (split; [done|]).
      * by exists COMPLETED, urls.
      * by exists e.
    + intros Hrun. inversion Hrun; subst. simpl.
      split; [by exists []|]. split; [done|]. by exists FAILED, [].
  - intros Hrun. inversion Hrun; subst. simpl.
    split; [by exists []|]. split; [done|]. by exists e.
Qed.

(** X8: the status query never answers URLs for a task that is not
    completed: its answer is the task id it was asked about, one of
    "pending", "completed" and "failed", and a list of URLs that is empty
    unless the status is "completed". *)
Theorem status_query_answer stid (st st' : St W) body :
  get_video_status stid st = (Ok body, st') ->
  exists status urls,
    body = [("task_id", JStr stid);
            ("status", JStr (status_name_lower status));
            ("video_urls", JList urls)] /\
    (status <> COMPLETED -> urls = []).
Proof. intros Hrun. by destruct (status_query_cases _ _ _ _ Hrun) as (_ & _ & ?). Qed.

(** X9: every failure of the status query reaches the client as the error
    400 whose detail is the text of the exception that was raised inside
    it: the one the metadata call raised, the one a lookup raised, or the
    [KeyError] of a work without an id; that call is the last the query
    made. *)
Theorem status_query_failure stid (st st' : St W) e :
  get_video_status stid st = (Raise e, st') ->
  exists e0,
    e = HTTPException 400 (str e0) /\
    (fetch_metadata (JStr stid) (world st) = (Raise e0, world st') \/
     (exists id w, fetch_video_url id w = (Raise e0, world st')) \/
     e0 = Exception "'workId'").
Proof.
  unfold get_video_status, try_except.
  unfold mbind at 1. unfold M_bind at 1. unfold call at 1.
  destruct (fetch_metadata (JStr stid) (world st)) as [[[data status]|e0] w1].
  - simpl. unfold mbind at 1. unfold M_bind at 1.
    destruct status; try done.
    destruct (collect_video_urls (get_works data) [] _)
      as [[urls|e0] st1] eqn:Hcollect; [done|].
    intros Hrun. inversion Hrun; subst. exists e0. split; [done|]. right.
    by apply collect_raises in Hcollect.
  - intros Hrun. inversion Hrun; subst. exists e0. split; [done|]. by left.
Qed.

(** X10: the status query polls the task once and then only looks works
    up: it never posts to a webhook, sleeps or submits, and it leaves the
    files and the scheduled tasks as they are. *)
Theorem status_query_frame stid (st : St W) :
  (exists ids,
      trace (snd (get_video_status stid st))
      = trace st ++ EFetchMetadata (JStr stid) :: map EFetchVideoUrl ids) /\
  same_files_tasks st (snd (get_video_status stid st)).
Proof.
  destruct (get_video_status stid st) as [r st'] eqn:Hrun.
  by destruct (status_query_cases _ _ _ _ Hrun) as (? & ? & _).
Qed.

End StatusQuery.

(** ** More on the creation of a job *)

Section Creation.
Context {W : Type} `{Collab : Collaborators W}.

(** X11: [create_video] fails with the client error 400 and with nothing
    else, and a request it rejects has no poll loop scheduled. *)
Theorem create_video_failure request (st st' : St W) e :
  create_video request st = (Raise e, st') ->
  (exists detail, e = HTTPException 400 detail) /\
  background_tasks st' = background_tasks st.
Proof.
  intros Hrun. split.
  - rewrite create_video_unfold in Hrun.
    destruct (download_image request st) as [[request'|e1] st1].
    + destruct (submit request' st1) as [[tid|e2] st2];
        inversion Hrun; subst. by eexists.
    + inversion Hrun; subst. by eexists.
  - rewrite (create_video_schedules _ _ _ _ Hrun). by rewrite app_nil_r.
Qed.

(** X12: when the download of the image fails, because the GET raises or
    because the status of its answer does, the request is rejected with the
    text of that exception; no temporary file is created and nothing is
    submitted to the provider. *)
Theorem download_failure request (st : St W) url r w1 e :
  image_url request = Some url ->
  url <> "" ->
  http_get url (world st) = (r, w1) ->
  (r = Raise e \/ exists response, r = Ok response /\ status_error response = Some e) ->
  create_video request st =
  (Raise (HTTPException 400 (str e)),
   mkSt w1 (files st) (trace st ++ [EGet url]) (background_tasks st)).
Proof.
  intros Hurl Hne Hget Hfail.
  rewrite create_video_unfold. unfold download_image.
  rewrite Hurl, (truthy_nonempty _ Hne).
  unfold mbind at 1. unfold M_bind at 1. unfold call at 1. rewrite Hget.
  destruct Hfail as [->|(response & -> & Hstatus)]; [done|].
  unfold mbind at 1. unfold M_bind at 1. unfold raise_for_status.
  by rewrite Hstatus.
Qed.

(** X13: when the caller's image path names no file, the removal after the
    submission raises and the request is rejected with the text of the
    exception [os.remove] raised, whatever the provider answered: a task id
    the provider returned is lost and no poll loop is scheduled for it. *)
Theorem missing_image_file_loses_task request (st : St W) path sub w1 :
  image_url request = None ->
  image_path request = Some path ->
  path <> "" ->
  path ∉ files st ->
  get_video (prompt request) None (Some path) (is_high_quality request)
            (model_name request) (world st) = (sub, w1) ->
  create_video request st =
  (Raise (HTTPException 400 (str (os_remove_error path))),
   mkSt w1 (files st)
        (trace st ++ [EGetVideo (prompt request) None (Some path)
                                (is_high_quality request) (model_name request);
                      ERemove path])
        (background_tasks st)).
Proof.
  intros Hurl Hpath Hne Hout Hsub.
  rewrite create_video_unfold.
  unfold download_image at 1. rewrite Hurl. simpl.
  unfold submit, try_finally, try_except, cleanup, call.
  rewrite Hpath, Hurl, (truthy_nonempty _ Hne), Hsub. simpl.
  unfold os_remove, log.
  destruct sub as [tid|e]; simpl;
    (destruct (decide (path ∈ files st)) as [Hin|_]; [done|]); simpl;
    by rewrite <- !app_assoc.
Qed.

(** X14: an image URL that is the empty string is neither downloaded nor
    taken for "no URL": the image path goes to the provider as it is and
    the file it names is not removed. *)
Theorem empty_image_url_keeps_file request (st : St W) sub w1 :
  image_url request = Some "" ->
  get_video (prompt request) None (image_path request) (is_high_quality request)
            (model_name request) (world st) = (sub, w1) ->
  create_video request st =
  (match sub with
   | Ok tid => Ok {| task_id := tid |}
   | Raise e => Raise (HTTPException 400 (http_exception_str 400 (str e)))
   end,
   mkSt w1 (files st)
        (trace st ++ [EGetVideo (prompt request) None (image_path request)
                                (is_high_quality request) (model_name request)])
        (background_tasks st ++
         match sub with
         | Ok tid => scheduled request tid
         | Raise _ => []
         end)).
Proof.
  intros Hurl Hsub.
  rewrite create_video_unfold.
  unfold download_image at 1. rewrite Hurl. simpl.
  unfold submit, try_finally, try_except, cleanup, call.
  rewrite Hurl, Hsub.
  destruct (image_path request) as [path|]; simpl;
    rewrite ?andb_false_r; destruct sub as [tid|e]; simpl;
    by rewrite ?app_nil_r.
Qed.

(** X15: when the request has an image URL, an image path the caller sent
    along is ignored: the provider receives the temporary file, and when
    [create_video] is over that file is gone and every other file,
    the caller's included, is where it was. *)
Theorem caller_path_overridden request (st : St W) url response w1 stem w2 w3 :
  image_url request = Some url ->
  url <> "" ->
  http_get url (world st) = (Ok response, w1) ->
  status_error response = None ->
  temp_stem (choose_extension (default "" (content_type_header response))
                              (urlparse_path url)) w1 = (Ok stem, w2) ->
  file_write (stem +:+ choose_extension (default "" (content_type_header response))
                                        (urlparse_path url))
             (content response) w2 = (Ok tt, w3) ->
  let name := stem +:+ choose_extension (default "" (content_type_header response))
                                        (urlparse_path url) in
  exists r st',
    create_video request st = (r, st') /\
    trace st' =
      trace st ++ [EGet url; ETempFile name; EWrite name;
                   EGetVideo (prompt request) None (Some name)
                             (is_high_quality request) (model_name request);
                   ERemove name] /\
    (forall path, path <> name -> path ∈ files st' <-> path ∈ files st) /\
    (name ∉ files st').
Proof.
  intros Hurl Hne Hget Hstatus Hstem Hwrite name.
  rewrite create_video_unfold.
  rewrite (download_image_run request st url response w1 stem w2 w3
             Hurl Hne Hget Hstatus Hstem Hwrite).
  fold name.
  assert (Hname : name <> "") by apply append_nonempty, choose_extension_nonempty.
  set (st1 := mkSt w3 ({[name]} ∪ files st)
                   (trace st ++ [EGet url; ETempFile name; EWrite name])
                   (background_tasks st)).
  destruct (get_video (prompt request) None (Some name)
              (is_high_quality request) (model_name request) w3)
    as [sub w4] eqn:Hsub.
  destruct (submit_run (set_image request None (Some name)) st1 name sub w4
              eq_refl eq_refl Hname Hsub) as (r & Hrun & _).
  rewrite Hrun.
  assert (Hfiles : forall path,
             path <> name ->
             path ∈ ({[name]} ∪ files st) ∖ {[name]} <-> path ∈ files st).
  { intros path Hpath.
    rewrite elem_of_difference, elem_of_union, !elem_of_singleton. tauto. }
  destruct r as [tid|e];
    (eexists; eexists; split; [reflexivity|]); simpl;
    (split; [by rewrite <- !app_assoc|]);
    (split; [exact Hfiles|apply removed_absent]).
Qed.

(** The submission makes one call to the provider and then at most one
    removal. *)
Lemma submit_shape request (st st2 : St W) r :
  submit request st = (r, st2) ->
  exists removed,
    trace st2 =
      trace st ++ EGetVideo (prompt request) None (image_path request)
                            (is_high_quality request) (model_name request)
               :: removed /\
    (removed = [] \/ exists path, removed = [ERemove path]).
Proof.
  unfold submit, try_finally, try_except, cleanup, call.
  destruct (get_video _ _ _ _ _ (world st)) as [[tid|e] w1]; simpl;
    (destruct (image_path request) as [path|]; simpl;
     [destruct (negb (path =? "")%string && is_none (image_url request)); simpl;
      [unfold os_remove, log; simpl;
       destruct (decide (path ∈ files st)); simpl|]|]);
    intros Hrun; inversion Hrun; subst; simpl;
    rewrite <- ?app_assoc; eauto.
Qed.

Lemma download_image_events request :
  respects (extends_with download_event)
           (download_image request : M W VideoRequest).
Proof.
  apply download_image_respects.
  - apply extends_refl.
  - apply extends_trans.
  - intros; by apply call_extends.
  - intros; by apply call_extends.
  - intros; by apply temp_extends.
Qed.

(** X16: [create_video] submits at most once, after everything it
    downloads and writes and before anything it removes, with the prompt,
    the quality flag and the model name of the request and a null image
    URL; a request that is answered a task id has been submitted exactly
    once. *)
Theorem single_submission request (st st' : St W) r :
  create_video request st = (r, st') ->
  exists downloads rest,
    trace st' = trace st ++ downloads ++ rest /\
    Forall download_event downloads /\
    ((rest = [] /\ exists e, r = Raise e) \/
     exists path removed,
       rest = EGetVideo (prompt request) None path
                        (is_high_quality request) (model_name request)
              :: removed /\
       (removed = [] \/ exists p, removed = [ERemove p])).
Proof.
  rewrite create_video_unfold.
  destruct (download_image request st) as [[request'|e] st1] eqn:Hdl.
  - pose proof (download_image_events _ _ _ _ Hdl) as (downloads & Htr1 & Hdownloads).
    apply download_image_request in Hdl as (Hprompt & _ & Hhq & Hmodel).
    destruct (submit request' st1) as [r2 st2] eqn:Hsub.
    apply submit_shape in Hsub as (removed & Htr2 & Hremoved).
    rewrite Hprompt, Hhq, Hmodel in Htr2.
    intros Hrun.
    assert (trace st' = trace st2) as -> by (destruct r2; by inversion Hrun).
    exists downloads, (EGetVideo (prompt request) None (image_path request')
                                 (is_high_quality request) (model_name request)
                       :: removed).
    split; [rewrite Htr2, Htr1; by rewrite <- app_assoc|].
    split; [done|]. right. by exists (image_path request'), removed.
  - pose proof (download_image_events _ _ _ _ Hdl) as (downloads & Htr1 & Hdownloads).
    intros Hrun. inversion Hrun; subst.
    exists downloads, []. rewrite app_nil_r.
    split; [done|]. split; [done|]. left. split; [done|]. by eexists.
Qed.

(** X17: [create_video] only downloads, creates, writes and removes files
    and submits with a null image URL: it never polls a task, looks a work
    up, sleeps or posts to a webhook. *)
Theorem create_video_frame request (st : St W) :
  extends_with creation_event st (snd (create_video request st)).
Proof.
  destruct (create_video request st) as [r st'] eqn:Hrun. simpl.
  eapply (create_video_events creation_event); [| |exact Hrun].
  - by intros [].
  - done.
Qed.

Lemma download_image_auto_extend b request (st : St W) :
  download_image (with_auto_extend b request) st =
  match download_image request st with
  | (Ok request', st') => (Ok (with_auto_extend b request'), st')
  | (Raise e, st') => (Raise e, st')
  end.
Proof.
  unfold download_image. simpl.
  destruct (image_url request) as [url|]; [|done].
  destruct (truthy (Some url)); [|done].
  unfold mbind, M_bind.
  destruct (call (EGet url) (http_get url) st) as [[response|?] st1]; [|done].
  destruct (raise_for_status response st1) as [[?|?] st2]; [|done].
  destruct (named_temporary_file _ st2) as [[name|?] st3]; [|done].
  by destruct (call (EWrite name) _ st3) as [[?|?] st4].
Qed.

(** X18: the [auto_extend] flag of a request has no effect: whatever its
    value, [create_video] makes the same calls, gives the same answer and
    schedules the same task. *)
Theorem auto_extend_ignored b request (st : St W) :
  create_video (with_auto_extend b request) st = create_video request st.
Proof.
  rewrite !create_video_unfold, download_image_auto_extend.
  by destruct (download_image request st) as [[request'|e] st1].
Qed.

End Creation.

(** ** More on the extension *)

Lemma rfind_from_get c p : forall i j,
  0 <= i ->
  rfind_from c p i = j ->
  j = -1 \/ (i <= j /\ String.get (Z.to_nat (j - i)) p = Some c).
Proof.
  induction p as [|a rest IH]; intros i j Hi Hfind; simpl in Hfind.
  - by left.
  - destruct (rfind_from c rest (i + 1) >=? 0) eqn:Hlater.
    + destruct (IH (i + 1) j ltac:(lia) Hfind) as [->|[Hle Hget]].
      * by rewrite Hfind in Hlater.
      * right. split; [lia|].
        replace (Z.to_nat (j - i)) with (S (Z.to_nat (j - (i + 1)))) by lia.
        done.
    + destruct (Ascii.eqb a c) eqn:Hac; [|by left].
      right. subst j. split; [lia|].
      replace (Z.to_nat (i - i)) with 0%nat by lia. simpl.
      by apply Ascii.eqb_eq in Hac as ->.
Qed.

Lemma substring_from_get c p : forall n,
  String.get n p = Some c ->
  exists rest, String.substring n (String.length p - n) p = String c rest.
Proof.
  induction p as [|a r IH]; intros n Hget; [by destruct n|].
  destruct n as [|n]; simpl in *.
  - inversion Hget; subst. by eexists.
  - by apply IH.
Qed.

Lemma splitext_ext_dot p :
  splitext_ext p = "" \/ exists rest, splitext_ext p = String "." rest.
Proof.
  unfold splitext_ext.
  destruct (_ && _) eqn:Hcond; [|by left].
  right. apply andb_true_iff in Hcond as [Hdot _].
  apply Z.gtb_lt in Hdot.
  destruct (rfind_from_get "/" p 0 (rfind "/" p) ltac:(lia) eq_refl)
    as [Hsep|[Hsep _]];
    destruct (rfind_from_get "." p 0 (rfind "." p) ltac:(lia) eq_refl)
      as [Hnone|[_ Hget]]; try lia;
    rewrite Z.sub_0_r in Hget; by apply substring_from_get.
Qed.

(** X19: the suffix of the temporary file is never empty and always
    begins with a dot, whatever the content type and the URL are. *)
Theorem extension_begins_with_dot content_type url_path :
  exists rest, choose_extension content_type url_path = String "." rest.
Proof.
  unfold choose_extension.
  repeat (match goal with
          | |- context [if str_in ?k content_type then _ else _] =>
              destruct (str_in k content_type); [by eexists|]
          end).
  destruct (splitext_ext_dot url_path) as [->|[rest ->]]; by eexists.
Qed.

(** X20: a content type is recognised wherever it occurs in the header:
    [str_in] is containment, so a header with parameters or with several
    types is matched, and image/jpeg decides for .jpg whatever else the
    header and the URL say. *)
Theorem content_type_anywhere :
  (forall pat s,
      str_in pat s = true <-> exists before after, s = before +:+ pat +:+ after) /\
  (forall before after url_path,
      choose_extension (before +:+ "image/jpeg" +:+ after) url_path = ".jpg").
Proof.
  assert (Hin : forall pat s,
             str_in pat s = true <->
             exists before after, s = before +:+ pat +:+ after).
  { intros pat s. split.
    - induction s as [|c s IH]; cbn [str_in].
      + rewrite orb_false_r. intros Hprefix.
        apply prefix_split in Hprefix as [after ->]. by exists "", after.
      + intros [Hprefix|Hrest]%orb_true_iff.
        * apply prefix_split in Hprefix as [after ->]. by exists "", after.
        * destruct (IH Hrest) as (before & after & ->).
          by exists (String c before), after.
    - intros (before & after & ->).
      induction before as [|c before IH].
      + change ("" +:+ pat +:+ after) with (pat +:+ after).
        destruct (pat +:+ after) eqn:Happ; cbn [str_in];
          rewrite <- Happ, prefix_append; done.
      + change (String c before +:+ pat +:+ after)
          with (String c (before +:+ pat +:+ after)).
        cbn [str_in]. by rewrite IH, orb_true_r. }
  split; [exact Hin|].
  intros before after url_path. unfold choose_extension.
  by rewrite (proj2 (Hin "image/jpeg" _) (ex_intro _ before (ex_intro _ after eq_refl))).
Qed.

(** ** The further properties on the scripted world *)

Lemma still_polling_run_witness :
  poll_and_notify 2 7 hook (start (script []))
  = (StillPolling,
     mkSt (pass_time 5 (pass_time 5 (script []))) ∅ (pending_events 7 2) []) /\
  trace (mkSt (pass_time 5 (pass_time 5 (script []))) ∅ (pending_events 7 2) [])
  = [] ++ pending_events 7 2.
Proof.
  assert (Hrun : poll_and_notify 2 7 hook (start (script []))
                 = (StillPolling,
                    mkSt (pass_time 5 (pass_time 5 (script []))) ∅
                         (pending_events 7 2) [])) by reflexivity.
  split; [exact Hrun|].
  exact (proj1 (still_polling_run 7 hook 2 _ _ Hrun)).
Defined.

Lemma finished_run_witness :
  poll_and_notify 3 7 hook (start (script [pending; completed [1; 2; 3]]))
  = (Finished (Ok tt),
     snd (poll_and_notify 3 7 hook
            (start (script [pending; completed [1; 2; 3]])))) /\
  exists k ids body rest,
    (k < 3)%nat /\
    trace (snd (poll_and_notify 3 7 hook
                  (start (script [pending; completed [1; 2; 3]]))))
    = [] ++ pending_events 7 k
         ++ EFetchMetadata (JInt 7) :: map EFetchVideoUrl ids
         ++ EPost hook body :: rest.
Proof.
  assert (Hrun :
            poll_and_notify 3 7 hook (start (script [pending; completed [1; 2; 3]]))
            = (Finished (Ok tt),
               snd (poll_and_notify 3 7 hook
                      (start (script [pending; completed [1; 2; 3]])))))
    by reflexivity.
  split; [exact Hrun|].
  destruct (finished_run 7 hook 3 _ _ _ Hrun)
    as (k & ids & body & rest & Hk & Htr & _).
  by exists k, ids, body, rest.
Defined.

Lemma escaping_exception_witness :
  poll_and_notify 1 7 dead_hook (start (script [failed]))
  = (Finished (Raise (Exception "All connection attempts failed")),
     snd (poll_and_notify 1 7 dead_hook (start (script [failed])))) /\
  exists e0 w pre,
    http_post dead_hook (error_payload (JInt 7) e0) w
    = (Raise (Exception "All connection attempts failed"),
       world (snd (poll_and_notify 1 7 dead_hook (start (script [failed]))))) /\
    trace (snd (poll_and_notify 1 7 dead_hook (start (script [failed]))))
    = pre ++ [EPost dead_hook (error_payload (JInt 7) e0)].
Proof.
  assert (Hrun : poll_and_notify 1 7 dead_hook (start (script [failed]))
                 = (Finished (Raise (Exception "All connection attempts failed")),
                    snd (poll_and_notify 1 7 dead_hook (start (script [failed])))))
    by reflexivity.
  split; [exact Hrun|].
  exact (escaping_exception 7 dead_hook 1 _ _ _ Hrun).
Defined.

Lemma missing_work_id_aborts_witness :
  lookups_return [ {| workId := Some 1 |} ] [1] [(Some v1, COMPLETED)]
                 (script []) (script []) /\
  get_video_status "7" (start (script [Ok (second_work_without_id, COMPLETED)]))
  = (Raise (HTTPException 400 "'workId'"),
     mkSt (script []) ∅ [EFetchMetadata (JStr "7"); EFetchVideoUrl 1] []).
Proof.
  assert (Hlookups :
            lookups_return [ {| workId := Some 1 |} ] [1] [(Some v1, COMPLETED)]
                           (script []) (script [])).
  { eapply lookups_cons; [reflexivity|]. apply lookups_nil. }
  split; [exact Hlookups|].
  exact (proj1 (missing_work_id_aborts 7 "7" hook
                  (start (script [Ok (second_work_without_id, COMPLETED)]))
                  second_work_without_id (script [])
                  [ {| workId := Some 1 |} ] [ {| workId := Some 3 |} ]
                  [1] [(Some v1, COMPLETED)] (script [])
                  eq_refl eq_refl eq_refl Hlookups)).
Defined.

Lemma raising_lookup_aborts_witness :
  fetch_video_url 2 (with_lookups lookup_times_out (script []))
  = (Raise (Exception "lookup timed out"),
     with_lookups lookup_times_out (script [])) /\
  get_video_status "7"
    (start (with_lookups lookup_times_out (script [completed [1; 2; 3]])))
  = (Raise (HTTPException 400 "lookup timed out"),
     mkSt (with_lookups lookup_times_out (script [])) ∅
          [EFetchMetadata (JStr "7"); EFetchVideoUrl 1; EFetchVideoUrl 2] []).
Proof.
  assert (Hlookups :
            lookups_return [ {| workId := Some 1 |} ] [1] [(Some v1, COMPLETED)]
                           (with_lookups lookup_times_out (script []))
                           (with_lookups lookup_times_out (script []))).
  { eapply lookups_cons; [reflexivity|]. apply lookups_nil. }
  split; [reflexivity|].
  exact (proj1 (raising_lookup_aborts 7 "7" hook
                  (start (with_lookups lookup_times_out
                            (script [completed [1; 2; 3]])))
                  all_works (with_lookups lookup_times_out (script []))
                  [ {| workId := Some 1 |} ] [ {| workId := Some 3 |} ]
                  [1] [(Some v1, COMPLETED)]
                  (with_lookups lookup_times_out (script []))
                  2 (Exception "lookup timed out")
                  (with_lookups lookup_times_out (script []))
                  eq_refl eq_refl eq_refl Hlookups eq_refl)).
Defined.

Lemma status_query_not_completed_witness :
  fetch_metadata (JStr "7") (world (start (script [failed])))
  = (Ok (no_works, FAILED), script []) /\
  get_video_status "7" (start (script [failed]))
  = (Ok [("task_id", JStr "7"); ("status", JStr "failed");
         ("video_urls", JList [])],
     mkSt (script []) ∅ [EFetchMetadata (JStr "7")] []).
Proof.
  split; [reflexivity|].
  exact (status_query_not_completed "7" (start (script [failed])) no_works
           FAILED (script []) eq_refl ltac:(discriminate)).
Defined.

Lemma status_query_answer_witness :
  get_video_status "7" (start (script [completed [1; 2; 3]]))
  = (Ok [("task_id", JStr "7"); ("status", JStr "completed");
         ("video_urls", JList [v1; v3])],
     snd (get_video_status "7" (start (script [completed [1; 2; 3]])))) /\
  exists status urls,
    [("task_id", JStr "7"); ("status", JStr "completed");
     ("video_urls", JList [v1; v3])]
    = [("task_id", JStr "7"); ("status", JStr (status_name_lower status));
       ("video_urls", JList urls)] /\
    (status <> COMPLETED -> urls = []).
Proof.
  assert (Hrun :
            get_video_status "7" (start (script [completed [1; 2; 3]]))
            = (Ok [("task_id", JStr "7"); ("status", JStr "completed");
                   ("video_urls", JList [v1; v3])],
               snd (get_video_status "7" (start (script [completed [1; 2; 3]])))))
    by reflexivity.
  split; [exact Hrun|].
  exact (status_query_answer "7" _ _ _ Hrun).
Defined.

Lemma status_query_failure_witness :
  get_video_status "7" (start (script [Raise connection_reset]))
  = (Raise (HTTPException 400 "connection reset"),
     snd (get_video_status "7" (start (script [Raise connection_reset])))) /\
  exists e0,
    HTTPException 400 "connection reset" = HTTPException 400 (str e0) /\
    (fetch_metadata (JStr "7") (world (start (script [Raise connection_reset])))
     = (Raise e0,
        world (snd (get_video_status "7"
                      (start (script [Raise connection_reset]))))) \/
     (exists id w,
         fetch_video_url id w
         = (Raise e0,
            world (snd (get_video_status "7"
                          (start (script [Raise connection_reset])))))) \/
     e0 = Exception "'workId'").
Proof.
  assert (Hrun :
            get_video_status "7" (start (script [Raise connection_reset]))
            = (Raise (HTTPException 400 "connection reset"),
               snd (get_video_status "7" (start (script [Raise connection_reset])))))
    by reflexivity.
  split; [exact Hrun|].
  exact (status_query_failure "7" _ _ _ Hrun).
Defined.

Lemma create_video_failure_witness :
  create_video (image_request (Some cat_url) None)
               (start (with_write (Raise no_space) (script [])))
  = (Raise (HTTPException 400 "[Errno 28] No space left on device"),
     snd (create_video (image_request (Some cat_url) None)
            (start (with_write (Raise no_space) (script []))))) /\
  (exists detail,
      HTTPException 400 "[Errno 28] No space left on device"
      = HTTPException 400 detail) /\
  background_tasks
    (snd (create_video (image_request (Some cat_url) None)
            (start (with_write (Raise no_space) (script []))))) = [].
Proof.
  assert (Hrun :
            create_video (image_request (Some cat_url) None)
                         (start (with_write (Raise no_space) (script [])))
            = (Raise (HTTPException 400 "[Errno 28] No space left on device"),
               snd (create_video (image_request (Some cat_url) None)
                      (start (with_write (Raise no_space) (script []))))))
    by reflexivity.
  split; [exact Hrun|].
  exact (create_video_failure _ _ _ _ Hrun).
Defined.

Lemma download_failure_witness :
  http_get cat_url (world (start (with_get (Ok not_found_response) (script []))))
  = (Ok not_found_response, with_get (Ok not_found_response) (script [])) /\
  create_video (image_request (Some cat_url) None)
               (start (with_get (Ok not_found_response) (script [])))
  = (Raise (HTTPException 400 "Client error '404 Not Found'"),
     mkSt (with_get (Ok not_found_response) (script [])) ∅ [EGet cat_url] []).
Proof.
  split; [reflexivity|].
  refine (download_failure (image_request (Some cat_url) None)
            (start (with_get (Ok not_found_response) (script [])))
            cat_url (Ok not_found_response)
            (with_get (Ok not_found_response) (script []))
            (Exception "Client error '404 Not Found'")
            eq_refl ltac:(discriminate) eq_refl _).
  right. by exists not_found_response.
Defined.

Lemma missing_image_file_loses_task_witness :
  get_video "a cat" None (Some cat_path) true "1.5" (world (start (script [])))
  = (Ok 42, script []) /\
  create_video (image_request None (Some cat_path)) (start (script []))
  = (Raise (HTTPException 400
              "[Errno 2] No such file or directory: '/home/user/cat.png'"),
     mkSt (script []) ∅
          [EGetVideo "a cat" None (Some cat_path) true "1.5"; ERemove cat_path]
          []).
Proof.
  split; [reflexivity|].
  exact (missing_image_file_loses_task (image_request None (Some cat_path))
           (start (script [])) cat_path (Ok 42) (script [])
           eq_refl eq_refl ltac:(discriminate) (not_elem_of_empty _) eq_refl).
Defined.

Lemma empty_image_url_keeps_file_witness :
  create_video (image_request (Some "") (Some cat_path))
               (mkSt (script []) {[cat_path]} [] [])
  = (Ok {| task_id := 42 |},
     mkSt (script []) {[cat_path]}
          [EGetVideo "a cat" None (Some cat_path) true "1.5"] []).
Proof.
  exact (empty_image_url_keeps_file (image_request (Some "") (Some cat_path))
           (mkSt (script []) {[cat_path]} [] []) (Ok 42) (script [])
           eq_refl eq_refl).
Defined.

Lemma caller_path_overridden_witness :
  http_get cat_url (script []) = (Ok png_response, script []) /\
  exists r st',
    create_video (image_request (Some cat_url) (Some cat_path))
                 (mkSt (script []) {[cat_path]} [] []) = (r, st') /\
    trace st' =
      [] ++ [EGet cat_url; ETempFile "/tmp/tmpab12cd.png";
             EWrite "/tmp/tmpab12cd.png";
             EGetVideo "a cat" None (Some "/tmp/tmpab12cd.png") true "1.5";
             ERemove "/tmp/tmpab12cd.png"] /\
    (forall path,
        path <> "/tmp/tmpab12cd.png" ->
        path ∈ files st' <-> path ∈ ({[cat_path]} : gset string)) /\
    ("/tmp/tmpab12cd.png" ∉ files st').
Proof.
  split; [reflexivity|].
  exact (caller_path_overridden (image_request (Some cat_url) (Some cat_path))
           (mkSt (script []) {[cat_path]} [] [])
           cat_url png_response (script []) "/tmp/tmpab12cd" (script []) (script [])
           eq_refl ltac:(discriminate) eq_refl eq_refl eq_refl eq_refl).
Defined.

Lemma single_submission_witness :
  create_video (text_request "a cat" (Some hook)) (start (script []))
  = (Ok {| task_id := 42 |},
     snd (create_video (text_request "a cat" (Some hook)) (start (script [])))) /\
  exists downloads rest,
    trace (snd (create_video (text_request "a cat" (Some hook))
                  (start (script []))))
    = [] ++ downloads ++ rest /\
    Forall download_event downloads /\
    ((rest = [] /\ exists e, Ok {| task_id := 42 |} = Raise e) \/
     exists path removed,
       rest = EGetVideo "a cat" None path true "1.5" :: removed /\
       (removed = [] \/ exists p, removed = [ERemove p])).
Proof.
  assert (Hrun :
            create_video (text_request "a cat" (Some hook)) (start (script []))
            = (Ok {| task_id := 42 |},
               snd (create_video (text_request "a cat" (Some hook))
                      (start (script []))))) by reflexivity.
  split; [exact Hrun|].
  exact (single_submission _ _ _ _ Hrun).
Defined.
